(** * Adaptive study planner: the greedy time-blocking scheduler

    A shallow embedding of [generate_schedule] and [get_upcoming_blocks]
    of [main.py], with the properties of the produced plan.

    Modelling conventions.
    - A naive [datetime] is the number of microseconds elapsed since a
      midnight (the resolution of Python's [datetime]); the calendar range
      check of [datetime] (years 1 to 9999) is not modelled.
    - A [timedelta] is a number of microseconds.
    - Python floats ([estimated_hours * 60.0], the running [remaining]) are
      rationals [Q] and their arithmetic is exact: the rounding of binary
      floating point is not modelled, nor is the [OverflowError] of a
      [datetime] or [timedelta] out of range. [timedelta(minutes=q)] rounds
      [q] to the nearest microsecond, ties to even. The properties below
      rely on the sign of [remaining], on a session lasting between zero
      and [max_session_minutes], and on whole numbers of minutes, which
      are the same with and without rounding.
    - ISO strings stored in tasks and blocks are the timestamps they denote
      ([isoformat] and [fromisoformat] are inverse on naive datetimes).
    - The profile is a dictionary from strings to integers.
    - [datetime.now()] is an argument. *)

From Stdlib Require Import ZArith QArith Lia Lqa Sorting.Sorted Sorting.Permutation.
From stdpp Require Import base option list strings gmap.

Local Open Scope Z_scope.

(** ** Time *)

Module Time.

Definition SECOND : Z := 1000000.
Definition MINUTE : Z := 60 * SECOND.
Definition HOUR : Z := 60 * MINUTE.
Definition DAY : Z := 24 * HOUR.

(** [datetime.hour] *)
Definition hour (t : Z) : Z := (t mod DAY) / HOUR.

(** midnight of the day of [t] *)
Definition midnight (t : Z) : Z := (t / DAY) * DAY.

(** Round to the nearest integer, ties to the even one. *)
Definition round_half_even (q : Q) : Z :=
  let n := Qnum q in
  let d := Z.pos (Qden q) in
  let f := n / d in
  let r := n mod d in
  if 2 * r <? d then f
  else if d <? 2 * r then f + 1
  else if Z.even f then f else f + 1.

(** [timedelta(minutes=q)], [timedelta(hours=h)], [timedelta(days=d)] *)
Definition timedelta_minutes (q : Q) : Z := round_half_even (q * inject_Z MINUTE).
Definition timedelta_hours (h : Z) : Z := h * HOUR.
Definition timedelta_days (d : Z) : Z := d * DAY.

End Time.
Import Time.

(** ** Outcomes of a run *)

Inductive exn := ValueError.

(** [Done v]: the code returns [v]; [Raise e]: it raises [e];
    [Timeout]: the loop budget of the model ran out. *)
Inductive outcome (A : Type) :=
| Done (v : A)
| Raise (e : exn)
| Timeout.
Arguments Done {A} v.
Arguments Raise {A} e.
Arguments Timeout {A}.

Definition bind {A B} (m : outcome A) (k : A -> outcome B) : outcome B :=
  match m with
  | Done v => k v
  | Raise e => Raise e
  | Timeout => Timeout
  end.

Definition omap {A B} (f : A -> B) (m : outcome A) : outcome B :=
  bind m (fun v => Done (f v)).

(** [datetime.replace(hour=h, minute=0, second=0, microsecond=0)]:
    [ValueError] when [h] is not in [0..23]. *)
Definition replace_hour (t h : Z) : outcome Z :=
  if (0 <=? h) && (h <=? 23) then Done (midnight t + h * HOUR)
  else Raise ValueError.

(** ** Data model *)

(** A task dictionary; [title] and [due] are read with [task[...]], the
    others with [task.get(..., default)]. *)
Record Task := {
  title : string;
  subject : option string;
  due : Z;
  estimated_hours : option Q;
  priority : option Z
}.

(** A block dictionary, keys [title], [subject], [start], [end], [minutes]. *)
Record StudyBlock := {
  block_title : string;
  block_subject : string;
  start : Z;
  end_ : Z;
  minutes : Q
}.

(** [USER_STATE] *)
Record UserState := {
  profile : gmap string Z;
  tasks : list Task;
  plans : list StudyBlock
}.

(** [d.get(k, default)] *)
Definition get (d : gmap string Z) (k : string) (dflt : Z) : Z :=
  default dflt (d !! k).

(** ** The stores *)

(** Each store function is modelled by what it does to [USER_STATE]; the
    message it returns is left out. *)

Definition save_profile (preferences : gmap string Z) (s : UserState) : UserState :=
  {| profile := preferences ∪ profile s; tasks := tasks s; plans := plans s |}.

Definition add_task (task : Task) (s : UserState) : UserState :=
  {| profile := profile s; tasks := tasks s ++ [task]; plans := plans s |}.

Definition list_tasks (s : UserState) : list Task := tasks s.

Definition save_plan (plan : list StudyBlock) (s : UserState) : UserState :=
  {| profile := profile s; tasks := tasks s; plans := plan |}.

(** [get_upcoming_blocks(hours_ahead=24)]: the result and the state after
    the call. *)
Definition get_upcoming_blocks (hours_ahead : option Z) (now : Z) (s : UserState)
  : list StudyBlock * UserState :=
  let horizon := now + timedelta_hours (default 24 hours_ahead) in
  (filter (fun block => now <= start block <= horizon) (plans s), s).

(** ** The scheduler *)

(** [a < b] on floats *)
Definition Qltb (a b : Q) : bool := (Qnum a * QDen b <? Qnum b * QDen a)%Z.

(** [min(a, b)] of Python with an integer [a] and a float [b]: the first
    argument unless the second is strictly smaller. *)
Definition py_min (a : Z) (b : Q) : Q :=
  if Qltb b (inject_Z a) then b else inject_Z a.

(** The sort key of line 86: [(due, -priority)], compared as tuples. *)
Definition key (t : Task) : Z * Z := (due t, - default 3 (priority t)).

Definition tuple_le (a b : Z * Z) : bool :=
  (a.1 <? b.1) || ((a.1 =? b.1) && (a.2 <=? b.2)).

(** [sorted(tasks, key=...)]: Python's sort is stable, so its result is the
    one of a stable insertion sort. *)
Fixpoint insert (x : Task) (l : list Task) : list Task :=
  match l with
  | [] => [x]
  | y :: l' => if tuple_le (key x) (key y) then x :: l else y :: insert x l'
  end.

Definition sorted (l : list Task) : list Task := foldr insert [] l.

(** What one iteration of the [for] loop did: the task, the blocks appended
    for it, and the cursor when its [while] loop ended. *)
Record TaskRun := {
  run_task : Task;
  run_blocks : list StudyBlock;
  run_cursor : Z
}.

Section Scheduler.

Variables daily_start daily_end max_session : Z.

(** Lines 97-102: the cursor is moved into the daily window. *)
Definition snap (current : Z) : outcome Z :=
  if hour current <? daily_start then replace_hour current daily_start
  else if daily_end <=? hour current then
    replace_hour (current + timedelta_days 1) daily_start
  else Done current.

Definition make_block (task : Task) (current end_time : Z) (session_minutes : Q)
  : StudyBlock :=
  {| block_title := title task;
     block_subject := default EmptyString (subject task);
     start := current;
     end_ := end_time;
     minutes := session_minutes |}.

(** Lines 96-120: the [while] loop of one task, on the shared [plan] and
    cursor [current]; [fuel] bounds the number of iterations. *)
Fixpoint while_loop (fuel : nat) (task : Task) (due : Z) (remaining : Q)
    (current : Z) (plan : list StudyBlock) : outcome (list StudyBlock * Z) :=
  match fuel with
  | O => Timeout
  | S fuel' =>
      if Qltb 0%Q remaining && (current <? due) then
        bind (snap current) (fun current =>
          let session_minutes := py_min max_session remaining in
          let end_time := current + timedelta_minutes session_minutes in
          if due <? end_time then Done (plan, current)
          else
            let block := make_block task current end_time session_minutes in
            while_loop fuel' task due (remaining - session_minutes)%Q
              (end_time + timedelta_minutes 10%Q) (plan ++ [block]))
      else Done (plan, current)
  end.

(** Lines 93-120: the body of the [for] loop. *)
Definition for_body (fuel : nat) (task : Task) (st : list StudyBlock * Z)
  : outcome (list StudyBlock * Z) :=
  let remaining := (default 1 (estimated_hours task) * 60)%Q in
  while_loop fuel task (due task) remaining st.2 st.1.

Fixpoint for_loop (fuel : nat) (sorted_tasks : list Task)
    (st : list StudyBlock * Z) : outcome (list StudyBlock * Z) :=
  match sorted_tasks with
  | [] => Done st
  | task :: rest => bind (for_body fuel task st) (for_loop fuel rest)
  end.

(** The same loop, keeping for each task the blocks its iteration appended
    and the cursor it left (the plan itself keeps only titles and
    subjects). *)
Fixpoint by_task (fuel : nat) (sorted_tasks : list Task) (current : Z)
  : outcome (list TaskRun) :=
  match sorted_tasks with
  | [] => Done []
  | task :: rest =>
      bind (for_body fuel task ([], current)) (fun st =>
        omap (cons {| run_task := task; run_blocks := st.1; run_cursor := st.2 |})
          (by_task fuel rest st.2))
  end.

End Scheduler.

Definition daily_start_of (profile : gmap string Z) : Z := get profile "daily_start_hour" 8.
Definition daily_end_of (profile : gmap string Z) : Z := get profile "daily_end_hour" 22.
Definition max_session_of (profile : gmap string Z) : Z := get profile "max_session_minutes" 50.

(** [generate_schedule(tasks, profile)], with [datetime.now()] and the
    iteration budget of each [while] loop as arguments. *)
Definition generate_schedule (fuel : nat) (tasks : list Task)
    (profile : gmap string Z) (now : Z) : outcome (list StudyBlock) :=
  let daily_start := get profile "daily_start_hour" 8 in
  let daily_end := get profile "daily_end_hour" 22 in
  let max_session := get profile "max_session_minutes" 50 in
  let sorted_tasks := sorted tasks in
  omap fst (for_loop daily_start daily_end max_session fuel sorted_tasks ([], now)).

(** The same run, with each task's blocks kept apart. *)
Definition schedule_by_task (fuel : nat) (tasks : list Task)
    (profile : gmap string Z) (now : Z) : outcome (list TaskRun) :=
  by_task (daily_start_of profile) (daily_end_of profile) (max_session_of profile)
    fuel (sorted tasks) now.

(** A profile that describes a non-empty daily window and a positive
    session length. *)
Definition valid_profile (profile : gmap string Z) : Prop :=
  0 <= daily_start_of profile <= 23 /\
  0 <= daily_end_of profile <= 23 /\
  daily_start_of profile < daily_end_of profile /\
  0 < max_session_of profile.

(** * Vocabulary of the properties *)

(** Minutes to place for a task: [float(task.get("estimated_hours", 1.0)) * 60.0] *)
Definition wanted_minutes (task : Task) : Q :=
  (default 1 (estimated_hours task) * 60)%Q.

Definition blocks_of (runs : list TaskRun) : list StudyBlock :=
  concat (map run_blocks runs).

Definition last_cursor (c : Z) (runs : list TaskRun) : Z :=
  foldl (fun _ r => run_cursor r) c runs.

(** [processed_before a b]: [a]'s key [(due, -priority)] is at most [b]'s. *)
Definition processed_before (a b : Task) : Prop :=
  due a < due b \/
  (due a = due b /\ default 3 (priority b) <= default 3 (priority a)).

(** [chained c blocks c']: the blocks follow each other from cursor [c] on,
    each one starting no earlier than ten minutes after the end of the one
    before, none of negative length, and [c'] is no earlier than ten
    minutes after the end of the last. *)
Fixpoint chained (c : Z) (blocks : list StudyBlock) (c' : Z) : Prop :=
  match blocks with
  | [] => c <= c'
  | b :: rest =>
      c <= start b /\ start b <= end_ b /\ chained (end_ b + 10 * MINUTE) rest c'
  end.

Section Runs.

Variables daily_start daily_end max_session : Z.
Variable task : Task.
Variable due : Z.

Local Abbreviation snap := (snap daily_start daily_end).
Local Abbreviation session rem := (py_min max_session rem).

(** The run of the loop as a relation: from [remaining] and the cursor,
    the blocks appended, and the [remaining] and cursor at the end. *)
Inductive emits : Q -> Z -> list StudyBlock -> Q -> Z -> Prop :=
| emits_exit rem c :
    Qltb 0 rem && (c <? due) = false ->
    emits rem c [] rem c
| emits_break rem c c1 :
    Qltb 0 rem && (c <? due) = true ->
    snap c = Done c1 ->
    due < c1 + timedelta_minutes (session rem) ->
    emits rem c [] rem c1
| emits_block rem c c1 blocks rem' c' :
    Qltb 0 rem && (c <? due) = true ->
    snap c = Done c1 ->
    c1 + timedelta_minutes (session rem) <= due ->
    emits (rem - session rem)
      (c1 + timedelta_minutes (session rem) + timedelta_minutes 10) blocks rem' c' ->
    emits rem c
      (make_block task c1 (c1 + timedelta_minutes (session rem)) (session rem) :: blocks)
      rem' c'.

(** Number of iterations that suffices from cursor [c]: one per ten
    minutes left before [due], and one to leave the loop. *)
Definition iterations (c : Z) : nat :=
  S (Z.to_nat ((due - c + 10 * MINUTE) / (10 * MINUTE))).

End Runs.

Section TaskRuns.

Variables daily_start daily_end max_session : Z.

Local Abbreviation emits := (emits daily_start daily_end max_session).

(** The runs of consecutive tasks, each starting at the cursor the one
    before left. *)
Fixpoint runs_from (c : Z) (runs : list TaskRun) : Prop :=
  match runs with
  | [] => True
  | r :: rest =>
      (exists rem', emits (run_task r) (due (run_task r)) (wanted_minutes (run_task r))
                      c (run_blocks r) rem' (run_cursor r)) /\
      runs_from (run_cursor r) rest
  end.

End TaskRuns.

(** Iterations that suffice for every task, from cursor [c] on. *)
Definition budget (c : Z) (tasks : list Task) : nat :=
  foldr (fun t n => Nat.max (iterations (due t) c) n) O tasks.

(** ** Sample inputs *)

(** Day [d], [h]:[m] o'clock. *)
Definition at_ (d h m : Z) : Z := d * DAY + h * HOUR + m * MINUTE.

Definition sample_task (name : string) (due_time : Z) (hours : option Q)
    (prio : option Z) : Task :=
  {| title := name; subject := None; due := due_time;
     estimated_hours := hours; priority := prio |}.

(** An essay due at noon of the next day, one hour of work. *)
Definition essay : Task := sample_task "essay" (at_ 1 12 0) None None.

(** A quiz due at noon, an eighth of an hour of work. *)
Definition quiz : Task := sample_task "quiz" (at_ 0 12 0) (Some (1 # 8)%Q) None.

(** A task of [2^-40] hours. *)
Definition glance : Task :=
  sample_task "glance" (at_ 0 12 0) (Some (1 # 1099511627776)%Q) None.

(** Two tasks due at the same noon, priorities 1 and 5. *)
Definition reading : Task := sample_task "reading" (at_ 0 12 0) None (Some 1).
Definition project : Task := sample_task "project" (at_ 0 12 0) None (Some 5).

(** A window that ends where it starts, and one whose end is not an hour of
    the day. *)
Definition empty_window : gmap string Z :=
  {[ "daily_start_hour" := 8; "daily_end_hour" := 8 ]}.
Definition endless_window : gmap string Z :=
  {[ "daily_start_hour" := 8; "daily_end_hour" := 30 ]}.

(** A stored plan of three blocks, starting at 9:00, 10:00 and 11:00 of
    day 1. *)
Definition sample_block (name : string) (from : Z) : StudyBlock :=
  {| block_title := name; block_subject := EmptyString; start := from;
     end_ := from + 50 * MINUTE; minutes := 50 |}.

Definition sample_state : UserState :=
  {| profile := {[ "daily_start_hour" := 9 ]};
     tasks := [essay];
     plans := [sample_block "a" (at_ 1 9 0); sample_block "b" (at_ 1 10 0);
               sample_block "c" (at_ 1 11 0)] |}.

(** A profile that sets the two hours of the daily window, and a one-hour
    task due two days after [ds] o'clock of day 0. *)
Definition window_profile (ds de : Z) : gmap string Z :=
  {[ "daily_start_hour" := ds; "daily_end_hour" := de ]}.
Definition two_day_task (ds : Z) : Task :=
  sample_task "essay" (at_ 2 ds 0) None None.

(** A task that was due an hour before nine o'clock of day 0, and a
    profile whose day starts at no hour of the day. *)
Definition stale : Task := sample_task "stale" (at_ 0 8 0) None None.
Definition late_start : gmap string Z := {[ "daily_start_hour" := 25 ]}.

(** * Properties *)

(** ** Time arithmetic *)

Lemma DAY_eq : DAY = 86400000000.
Proof. reflexivity. Qed.

Lemma HOUR_eq : HOUR = 3600000000.
Proof. reflexivity. Qed.

Lemma MINUTE_eq : MINUTE = 60000000.
Proof. reflexivity. Qed.

Ltac time_arith :=
  unfold hour, midnight, timedelta_days, timedelta_hours in *;
  rewrite ?DAY_eq, ?HOUR_eq, ?MINUTE_eq in *;
  Z.div_mod_to_equations; lia.

Lemma hour_range t : 0 <= hour t <= 23.
Proof. time_arith. Qed.

Lemma midnight_le t : midnight t <= t < midnight t + DAY.
Proof. time_arith. Qed.

Lemma hour_lower t : midnight t + hour t * HOUR <= t.
Proof. time_arith. Qed.

Lemma hour_upper t : t < midnight t + (hour t + 1) * HOUR.
Proof. time_arith. Qed.

Lemma hour_of_replace t h : 0 <= h <= 23 -> hour (midnight t + h * HOUR) = h.
Proof. intros Hh. time_arith. Qed.

Lemma midnight_of_replace t h : 0 <= h <= 23 -> midnight (midnight t + h * HOUR) = midnight t.
Proof. intros Hh. time_arith. Qed.

Lemma midnight_next_day t : midnight (t + timedelta_days 1) = midnight t + DAY.
Proof. time_arith. Qed.

(** ** Rounding to microseconds *)

Lemma Qltb_lt a b : Qltb a b = true <-> (a < b)%Q.
Proof. unfold Qltb, Qlt. apply Z.ltb_lt. Qed.

Lemma Qltb_ge a b : Qltb a b = false <-> (b <= a)%Q.
Proof. unfold Qltb, Qle. rewrite Z.ltb_ge. reflexivity. Qed.

Lemma round_half_even_nonneg q : (0 <= q)%Q -> 0 <= round_half_even q.
Proof.
  destruct q as [n d]. unfold Qle, round_half_even. simpl. intros Hn.
  assert (0 <= n / Z.pos d) by (apply Z.div_pos; lia).
  repeat case_match; lia.
Qed.

Lemma round_half_even_int q k : (q == inject_Z k)%Q -> round_half_even q = k.
Proof.
  destruct q as [n d]. unfold Qeq, round_half_even. simpl. intros Hn.
  assert (Hq : n / Z.pos d = k) by (symmetry; apply Z.div_unique_exact; lia).
  assert (Hr : n mod Z.pos d = 0) by (apply Z.mod_divide; [lia | exists k; lia]).
  rewrite Hq, Hr. simpl. reflexivity.
Qed.

Lemma round_half_even_le_int q k : (q <= inject_Z k)%Q -> round_half_even q <= k.
Proof.
  destruct q as [n d]. unfold Qle, round_half_even. simpl. intros Hn.
  pose proof (Z.div_mod n (Z.pos d) ltac:(lia)) as Hdm.
  pose proof (Z.mod_pos_bound n (Z.pos d) ltac:(lia)) as Hb.
  destruct (Z.ltb_spec (2 * (n mod Z.pos d)) (Z.pos d)); [nia |].
  assert (n / Z.pos d < k) by nia.
  repeat case_match; lia.
Qed.

(** The rounded value is less than one unit away from the exact one. *)
Lemma round_half_even_within_one q :
  (inject_Z (round_half_even q) - 1 < q)%Q /\ (q < inject_Z (round_half_even q) + 1)%Q.
Proof.
  destruct q as [n d]. unfold Qlt, round_half_even. simpl.
  pose proof (Z.div_mod n (Z.pos d) ltac:(lia)) as Hdm.
  pose proof (Z.mod_pos_bound n (Z.pos d) ltac:(lia)) as Hb.
  repeat case_match; nia.
Qed.

Lemma timedelta_minutes_int q k :
  (q == inject_Z k)%Q -> timedelta_minutes q = k * MINUTE.
Proof.
  intros Hq. unfold timedelta_minutes. apply round_half_even_int.
  rewrite Hq, inject_Z_mult. reflexivity.
Qed.

Lemma timedelta_minutes_10 : timedelta_minutes 10 = 10 * MINUTE.
Proof. reflexivity. Qed.

Lemma timedelta_minutes_nonneg q : (0 <= q)%Q -> 0 <= timedelta_minutes q.
Proof.
  intros Hq. apply round_half_even_nonneg.
  apply Qmult_le_0_compat; [exact Hq | discriminate].
Qed.

Lemma timedelta_minutes_le q k :
  (q <= inject_Z k)%Q -> timedelta_minutes q <= k * MINUTE.
Proof.
  intros Hq. apply round_half_even_le_int. rewrite inject_Z_mult.
  apply Qmult_le_compat_r; [exact Hq | discriminate].
Qed.

Lemma py_min_le_l a b : (py_min a b <= inject_Z a)%Q.
Proof.
  unfold py_min. destruct (Qltb b (inject_Z a)) eqn:E.
  - apply Qltb_lt in E. apply Qlt_le_weak, E.
  - apply Qle_refl.
Qed.

Lemma py_min_le_r a b : (py_min a b <= b)%Q.
Proof.
  unfold py_min. destruct (Qltb b (inject_Z a)) eqn:E.
  - apply Qle_refl.
  - apply Qltb_ge in E. exact E.
Qed.

Lemma py_min_pos a b : 0 < a -> (0 < b)%Q -> (0 < py_min a b)%Q.
Proof.
  intros Ha Hb. unfold py_min. destruct (Qltb b (inject_Z a)); [exact Hb |].
  unfold Qlt. simpl. lia.
Qed.

(** ** The window snap *)

Section Snap.

Variables daily_start daily_end : Z.

Lemma snap_cases current c :
  snap daily_start daily_end current = Done c ->
  (hour current < daily_start /\ 0 <= daily_start <= 23 /\
     c = midnight current + daily_start * HOUR) \/
  (daily_start <= hour current /\ daily_end <= hour current /\
     0 <= daily_start <= 23 /\
     c = midnight current + DAY + daily_start * HOUR) \/
  (daily_start <= hour current < daily_end /\ c = current).
Proof.
  unfold snap, replace_hour. intros H.
  destruct (Z.ltb_spec (hour current) daily_start).
  - left. destruct (Z.leb_spec 0 daily_start); [| discriminate].
    destruct (Z.leb_spec daily_start 23); [| discriminate].
    simpl in H. split; [lia | split; [lia | congruence]].
  - destruct (Z.leb_spec daily_end (hour current)).
    + right; left. destruct (Z.leb_spec 0 daily_start); [| discriminate].
      destruct (Z.leb_spec daily_start 23); [| discriminate].
      simpl in H. rewrite midnight_next_day in H.
      repeat split; try lia. congruence.
    + right; right. split; [lia | congruence].
Qed.

(** The snap never moves the cursor back. *)
Lemma snap_forward current c :
  snap daily_start daily_end current = Done c -> current <= c.
Proof.
  intros H. apply snap_cases in H.
  pose proof (midnight_le current). pose proof (hour_upper current).
  pose proof (hour_range current).
  destruct H as [(? & ? & ->) | [(? & ? & ? & ->) | (? & ->)]];
    rewrite ?DAY_eq, ?HOUR_eq in *; nia.
Qed.

(** After the snap the cursor's hour is inside the window, when the window
    is not empty. *)
Lemma snap_in_window current c :
  daily_start < daily_end ->
  snap daily_start daily_end current = Done c ->
  daily_start <= hour c < daily_end.
Proof.
  intros Hw H. apply snap_cases in H.
  destruct H as [(? & ? & ->) | [(? & ? & ? & ->) | (? & ->)]].
  - rewrite hour_of_replace by lia. lia.
  - replace (midnight current + DAY + daily_start * HOUR)
      with (midnight (current + timedelta_days 1) + daily_start * HOUR)
      by (rewrite midnight_next_day; reflexivity).
    rewrite hour_of_replace by lia. lia.
  - lia.
Qed.

Lemma snap_raise current e :
  snap daily_start daily_end current = Raise e -> ~ 0 <= daily_start <= 23.
Proof.
  unfold snap, replace_hour. intros H Hr.
  destruct (Z.leb_spec 0 daily_start); [| lia].
  destruct (Z.leb_spec daily_start 23); [| lia].
  simpl in H. repeat case_match; discriminate.
Qed.

Lemma snap_done current :
  0 <= daily_start <= 23 -> exists c, snap daily_start daily_end current = Done c.
Proof.
  intros Hr. destruct (snap daily_start daily_end current) as [c | e |] eqn:E.
  - eauto.
  - apply snap_raise in E. contradiction.
  - unfold snap, replace_hour in E. repeat case_match; discriminate.
Qed.

Lemma snap_not_timeout current : snap daily_start daily_end current <> Timeout.
Proof. unfold snap, replace_hour. repeat case_match; discriminate. Qed.

End Snap.

(** ** The loop of one task *)

Lemma omap_omap {A B C} (f : A -> B) (g : B -> C) (m : outcome A) :
  omap g (omap f m) = omap (fun v => g (f v)) m.
Proof. destruct m; reflexivity. Qed.

Lemma bind_done {A B} (m : outcome A) (k : A -> outcome B) (r : B) :
  bind m k = Done r -> exists v, m = Done v /\ k v = Done r.
Proof. destruct m; simpl; intros H; try discriminate. eauto. Qed.

Lemma omap_done {A B} (f : A -> B) (m : outcome A) (r : B) :
  omap f m = Done r -> exists v, m = Done v /\ r = f v.
Proof.
  intros H. apply bind_done in H as (v & Hm & Hv). exists v.
  split; [exact Hm | congruence].
Qed.

Section Loop.

Variables daily_start daily_end max_session : Z.
Variable task : Task.
Variable due : Z.

Local Abbreviation snap := (snap daily_start daily_end).
Local Abbreviation while_loop := (while_loop daily_start daily_end max_session).
Local Abbreviation session rem := (py_min max_session rem).
Local Abbreviation emits := (emits daily_start daily_end max_session task due).
Local Abbreviation iterations := (iterations due).

(** The blocks are appended to the plan, which is otherwise not read. *)
Lemma while_loop_plan fuel : forall rem c plan,
  while_loop fuel task due rem c plan =
  omap (fun r => (plan ++ r.1, r.2)) (while_loop fuel task due rem c []).
Proof.
  induction fuel as [| fuel IH]; intros rem c plan; [reflexivity |].
  simpl. destruct (Qltb 0 rem && (c <? due)); simpl.
  - destruct (snap c) as [c1 | e |]; simpl; try reflexivity.
    destruct (due <? c1 + timedelta_minutes (session rem)); simpl.
    + rewrite app_nil_r. reflexivity.
    + rewrite (IH _ _ (plan ++ _)), (IH _ _ [_]), omap_omap.
      destruct (while_loop fuel _ _ _ _ []) as [[bs c'] | e |]; simpl; try reflexivity.
      rewrite <- app_assoc. reflexivity.
  - rewrite app_nil_r. reflexivity.
Qed.

Lemma while_loop_emits fuel : forall rem c blocks c',
  while_loop fuel task due rem c [] = Done (blocks, c') ->
  exists rem', emits rem c blocks rem' c'.
Proof.
  induction fuel as [| fuel IH]; intros rem c blocks c' H; [discriminate |].
  simpl in H. destruct (Qltb 0 rem && (c <? due)) eqn:Hg.
  - apply bind_done in H as (c1 & Hs & H).
    destruct (Z.ltb_spec due (c1 + timedelta_minutes (session rem))).
    + injection H as <- <-. exists rem. eapply emits_break; eauto.
    + rewrite while_loop_plan in H. apply omap_done in H as ([bs c2] & Hw & Hr).
      simpl in Hr. injection Hr as -> ->.
      apply IH in Hw as (rem' & Hw). exists rem'. eapply emits_block; eauto.
  - injection H as <- <-. exists rem. apply emits_exit, Hg.
Qed.

(** More budget does not change a result. *)
Lemma while_loop_fuel_mono fuel : forall fuel' rem c plan r,
  (fuel <= fuel')%nat ->
  while_loop fuel task due rem c plan = Done r ->
  while_loop fuel' task due rem c plan = Done r.
Proof.
  induction fuel as [| fuel IH]; intros fuel' rem c plan r Hle H; [discriminate |].
  destruct fuel' as [| fuel']; [lia |].
  simpl in *. destruct (Qltb 0 rem && (c <? due)); [| exact H].
  destruct (snap c) as [c1 | e |]; simpl in *; try discriminate.
  destruct (due <? c1 + timedelta_minutes (session rem)); [exact H |].
  apply IH; [lia | exact H].
Qed.

Lemma iterations_antitone c c' : c <= c' -> (iterations c' <= iterations c)%nat.
Proof.
  intros Hc. unfold iterations. rewrite MINUTE_eq.
  assert ((due - c' + 10 * 60000000) / (10 * 60000000)
          <= (due - c + 10 * 60000000) / (10 * 60000000))
    by (apply Z.div_le_mono; lia).
  lia.
Qed.

(** Each iteration that appends a block moves the cursor at least ten
    minutes forward, so the loop ends within [iterations c] rounds. *)
Lemma while_loop_terminates fuel : forall rem c plan,
  0 <= daily_start <= 23 -> 0 < max_session ->
  (iterations c <= fuel)%nat ->
  exists r, while_loop fuel task due rem c plan = Done r.
Proof.
  induction fuel as [| fuel IH]; intros rem c plan Hr Hm Hf.
  { unfold iterations in Hf. lia. }
  simpl. destruct (Qltb 0 rem && (c <? due)) eqn:Hg; [| eauto].
  apply andb_true_iff in Hg as [Hrem Hc].
  apply Qltb_lt in Hrem. apply Z.ltb_lt in Hc.
  destruct (snap_done daily_start daily_end c Hr) as (c1 & Hs). rewrite Hs. simpl.
  destruct (due <? c1 + timedelta_minutes (session rem)); [eauto |].
  apply IH; [exact Hr | exact Hm |].
  apply snap_forward in Hs.
  pose proof (timedelta_minutes_nonneg (session rem)
                (Qlt_le_weak _ _ (py_min_pos _ _ Hm Hrem))) as Hd.
  rewrite timedelta_minutes_10.
  revert Hf. unfold iterations. rewrite MINUTE_eq.
  generalize (timedelta_minutes (session rem)) Hd. intros d Hd' Hf.
  Z.div_mod_to_equations. lia.
Qed.

(** One round of the loop either leaves it, the plan unchanged, or appends
    a block and goes on with the cursor at least ten minutes further. *)
Lemma while_loop_step fuel rem c plan :
  0 <= daily_start <= 23 -> 0 < max_session ->
  (exists c', c <= c' /\
     while_loop (S fuel) task due rem c plan = Done (plan, c')) \/
  (exists b c2, c + 10 * MINUTE <= c2 /\
     while_loop (S fuel) task due rem c plan =
     while_loop fuel task due (rem - minutes b) c2 (plan ++ [b])).
Proof.
  intros Hr Hm. simpl. destruct (Qltb 0 rem && (c <? due)) eqn:Hg.
  - apply andb_true_iff in Hg as [Hrem _]. apply Qltb_lt in Hrem.
    destruct (snap_done daily_start daily_end c Hr) as (c1 & Hs). rewrite Hs. simpl.
    apply snap_forward in Hs.
    destruct (due <? c1 + timedelta_minutes (session rem)).
    + left. exists c1. auto.
    + right.
      exists (make_block task c1 (c1 + timedelta_minutes (session rem)) (session rem)),
        (c1 + timedelta_minutes (session rem) + timedelta_minutes 10).
      split; [| reflexivity].
      pose proof (timedelta_minutes_nonneg (session rem)
                    (Qlt_le_weak _ _ (py_min_pos _ _ Hm Hrem))).
      rewrite timedelta_minutes_10. lia.
  - left. exists c. split; [lia | reflexivity].
Qed.

(** When the first session fits, the loop returns a plan that begins with
    its block. *)
Lemma while_loop_first_block rem c c1 :
  0 <= daily_start <= 23 -> 0 < max_session ->
  (0 < rem)%Q -> c < due ->
  snap c = Done c1 ->
  c1 + timedelta_minutes (session rem) <= due ->
  exists fuel r,
    while_loop fuel task due rem c [] =
    Done (make_block task c1 (c1 + timedelta_minutes (session rem)) (session rem)
            :: r.1, r.2).
Proof.
  intros Hr Hm Hrem Hc Hs Hfit.
  set (c2 := c1 + timedelta_minutes (session rem) + timedelta_minutes 10).
  destruct (while_loop_terminates (iterations c2) (rem - session rem) c2 []
              Hr Hm ltac:(lia)) as (r & Hw).
  exists (S (iterations c2)), r. revert Hw. generalize (iterations c2) as n.
  intros n Hw. simpl.
  apply Qltb_lt in Hrem. apply Z.ltb_lt in Hc. rewrite Hrem, Hc, Hs.
  simpl. apply Z.ltb_ge in Hfit. rewrite Hfit.
  rewrite while_loop_plan. fold c2. rewrite Hw. reflexivity.
Qed.

End Loop.

(** ** Blocks in a row *)

Lemma chained_le c blocks c' : chained c blocks c' -> c <= c'.
Proof.
  revert c. induction blocks as [| b rest IH]; simpl; intros c H; [exact H |].
  destruct H as (H1 & H2 & H3). apply IH in H3. rewrite MINUTE_eq in H3. lia.
Qed.

Lemma chained_weaken c0 c blocks c' :
  c0 <= c -> chained c blocks c' -> chained c0 blocks c'.
Proof. destruct blocks; simpl; intros; [lia | intuition lia]. Qed.

Lemma chained_app c l1 c1 l2 c2 :
  chained c l1 c1 -> chained c1 l2 c2 -> chained c (l1 ++ l2) c2.
Proof.
  revert c. induction l1 as [| b rest IH]; simpl; intros c H1 H2.
  - eapply chained_weaken; eauto.
  - destruct H1 as (? & ? & H1). repeat split; try assumption. apply IH; assumption.
Qed.

Lemma chained_elem c blocks c' b :
  chained c blocks c' -> b ∈ blocks ->
  c <= start b /\ start b <= end_ b /\ end_ b + 10 * MINUTE <= c'.
Proof.
  revert c. induction blocks as [| b0 rest IH]; simpl; intros c H Hb.
  - inversion Hb.
  - destruct H as (H1 & H2 & H3). apply elem_of_cons in Hb as [-> | Hb].
    + apply chained_le in H3. auto.
    + destruct (IH _ H3 Hb) as (? & ? & ?). rewrite MINUTE_eq in *. repeat split; lia.
Qed.

(** Two neighbours of a chained list. *)
Lemma chained_consecutive c blocks c' i b b' :
  chained c blocks c' ->
  blocks !! i = Some b -> blocks !! S i = Some b' ->
  end_ b + 10 * MINUTE <= start b'.
Proof.
  revert c i. induction blocks as [| b0 rest IH]; intros c i H Hi Hi'; [discriminate |].
  destruct H as (H1 & H2 & H3). destruct i as [| i].
  - simpl in Hi. injection Hi as ->. destruct rest as [| b1 rest]; [discriminate |].
    simpl in Hi'. injection Hi' as ->. simpl in H3. tauto.
  - simpl in Hi, Hi'. eapply IH; eauto.
Qed.

(** A block of an earlier part ends ten minutes before any block of a later
    part starts. *)
Lemma chained_app_elem c l1 l2 c' x y :
  chained c (l1 ++ l2) c' -> x ∈ l1 -> y ∈ l2 ->
  end_ x + 10 * MINUTE <= start y.
Proof.
  revert c. induction l1 as [| b rest IH]; simpl; intros c H Hx Hy.
  - inversion Hx.
  - destruct H as (H1 & H2 & H3). apply elem_of_cons in Hx as [-> | Hx].
    + assert (y ∈ rest ++ l2) as Hy' by (apply elem_of_app; auto).
      destruct (chained_elem _ _ _ _ H3 Hy') as (? & _). assumption.
    + eapply IH; eauto.
Qed.

Lemma chained_sorted c blocks c' :
  chained c blocks c' -> StronglySorted (fun b b' => start b < start b') blocks.
Proof.
  revert c. induction blocks as [| b rest IH]; intros c H; [constructor |].
  destruct H as (H1 & H2 & H3). constructor; [eapply IH; eauto |].
  apply Forall_forall. intros b' Hb'.
  destruct (chained_elem _ _ _ _ H3 Hb') as (? & _). rewrite MINUTE_eq in *. lia.
Qed.

(** ** What the loop of one task guarantees *)

Section LoopFacts.

Variables daily_start daily_end max_session : Z.
Variable task : Task.
Variable due : Z.

Local Abbreviation emits := (emits daily_start daily_end max_session task due).
Local Abbreviation session rem := (py_min max_session rem).

Lemma emits_window rem c blocks rem' c' :
  daily_start < daily_end ->
  emits rem c blocks rem' c' ->
  Forall (fun b => daily_start <= hour (start b) < daily_end) blocks.
Proof.
  intros Hw H. induction H; constructor; try assumption.
  simpl. eapply snap_in_window; eauto.
Qed.


Lemma emits_chained rem c blocks rem' c' :
  0 < max_session ->
  emits rem c blocks rem' c' -> chained c blocks c'.
Proof.
  intros Hm H. induction H; simpl.
  - lia.
  - eapply snap_forward; eauto.
  - apply andb_true_iff in H as [Hrem _]. apply Qltb_lt in Hrem.
    pose proof (timedelta_minutes_nonneg (session rem)
                  (Qlt_le_weak _ _ (py_min_pos _ _ Hm Hrem))).
    rewrite timedelta_minutes_10 in IHemits.
    repeat split; [eapply snap_forward; eauto | lia | assumption].
Qed.

(** Each block has the length of its [minutes], which are positive and at
    most [max_session]. *)
Lemma emits_minutes rem c blocks rem' c' :
  0 < max_session ->
  emits rem c blocks rem' c' ->
  Forall (fun b => (0 < minutes b)%Q /\ (minutes b <= inject_Z max_session)%Q /\
                   end_ b = start b + timedelta_minutes (minutes b)) blocks.
Proof.
  intros Hm H. induction H; constructor; try assumption.
  simpl. apply andb_true_iff in H as [Hrem _]. apply Qltb_lt in Hrem.
  repeat split; [apply py_min_pos; assumption | apply py_min_le_l].
Qed.

(** With a whole number of minutes to place, every block has a whole
    number of minutes. *)
Lemma emits_whole rem c blocks rem' c' :
  0 < max_session ->
  emits rem c blocks rem' c' ->
  forall k : Z, (rem == inject_Z k)%Q ->
  Forall (fun b => exists m : Z, 0 < m /\ (minutes b == inject_Z m)%Q /\
                                 end_ b - start b = m * MINUTE) blocks.
Proof.
  intros Hm H. induction H; intros k Hk; constructor.
  - apply andb_true_iff in H as [Hrem _]. apply Qltb_lt in Hrem. simpl.
    unfold py_min. destruct (Qltb rem (inject_Z max_session)).
    + exists k. rewrite (timedelta_minutes_int rem k Hk).
      split; [| split; [exact Hk | lia]].
      rewrite Hk in Hrem. unfold Qlt in Hrem. simpl in Hrem. lia.
    + exists max_session.
      rewrite (timedelta_minutes_int (inject_Z max_session) max_session) by reflexivity.
      split; [exact Hm | split; [reflexivity | lia]].
  - unfold py_min in *. destruct (Qltb rem (inject_Z max_session)).
    + apply (IHemits (k - k)). rewrite Hk. unfold Zminus.
      rewrite inject_Z_plus, inject_Z_opp. ring.
    + apply (IHemits (k - max_session)). rewrite Hk. unfold Zminus.
      rewrite inject_Z_plus, inject_Z_opp. ring.
Qed.

End LoopFacts.

(** ** The loop over the tasks *)

Section Tasks.

Variables daily_start daily_end max_session : Z.

Local Abbreviation emits := (emits daily_start daily_end max_session).
Local Abbreviation for_body := (for_body daily_start daily_end max_session).
Local Abbreviation for_loop := (for_loop daily_start daily_end max_session).
Local Abbreviation by_task := (by_task daily_start daily_end max_session).
Local Abbreviation runs_from := (runs_from daily_start daily_end max_session).

Lemma for_loop_by_task fuel sorted_tasks : forall plan c,
  for_loop fuel sorted_tasks (plan, c) =
  omap (fun runs => (plan ++ blocks_of runs, last_cursor c runs))
    (by_task fuel sorted_tasks c).
Proof.
  induction sorted_tasks as [| task rest IH]; intros plan c; simpl.
  - unfold blocks_of. simpl. rewrite app_nil_r. reflexivity.
  - unfold for_body at 1. simpl. rewrite while_loop_plan.
    unfold for_body. simpl.
    destruct (while_loop _ _ _ fuel task (due task) _ c []) as [[bs c1] | e |];
      simpl; try reflexivity.
    rewrite IH, omap_omap. destruct (by_task fuel rest c1); simpl; try reflexivity.
    unfold blocks_of. simpl. rewrite app_assoc. reflexivity.
Qed.

Lemma by_task_runs fuel sorted_tasks : forall c runs,
  by_task fuel sorted_tasks c = Done runs ->
  map run_task runs = sorted_tasks /\ runs_from c runs.
Proof.
  induction sorted_tasks as [| task rest IH]; intros c runs H; simpl in H.
  - injection H as <-. split; [reflexivity | exact I].
  - apply bind_done in H as ([bs c1] & Hb & H).
    apply omap_done in H as (runs' & Hr & ->). simpl in Hr.
    apply IH in Hr as [Hm Hr]. simpl. split; [congruence |].
    split; [| exact Hr]. unfold for_body in Hb. simpl in Hb.
    eapply while_loop_emits; eauto.
Qed.

Lemma by_task_fuel_mono fuel fuel' sorted_tasks : forall c runs,
  (fuel <= fuel')%nat ->
  by_task fuel sorted_tasks c = Done runs ->
  by_task fuel' sorted_tasks c = Done runs.
Proof.
  induction sorted_tasks as [| task rest IH]; intros c runs Hle H; simpl in *.
  - exact H.
  - apply bind_done in H as ([bs c1] & Hb & H).
    apply omap_done in H as (runs' & Hr & ->).
    unfold for_body in *. simpl in *.
    rewrite (while_loop_fuel_mono _ _ _ _ _ _ _ _ _ _ _ Hle Hb). simpl.
    rewrite (IH _ _ Hle Hr). reflexivity.
Qed.

Lemma budget_elem c tasks t : t ∈ tasks -> (iterations (due t) c <= budget c tasks)%nat.
Proof.
  induction tasks as [| t0 rest IH]; intros Ht; [inversion Ht |].
  apply elem_of_cons in Ht as [-> | Ht]; simpl; [lia |].
  specialize (IH Ht). lia.
Qed.

Lemma runs_from_forward c runs :
  0 < max_session -> runs_from c runs -> c <= last_cursor c runs.
Proof.
  intros Hm. revert c. induction runs as [| r rest IH]; simpl; intros c H; [lia |].
  destruct H as ((rem' & He) & H). apply IH in H.
  apply emits_chained, chained_le in He; [| exact Hm]. lia.
Qed.

Lemma by_task_terminates fuel sorted_tasks : forall c0 c,
  0 <= daily_start <= 23 -> 0 < max_session ->
  c0 <= c ->
  (forall t, t ∈ sorted_tasks -> (iterations (due t) c0 <= fuel)%nat) ->
  exists runs, by_task fuel sorted_tasks c = Done runs.
Proof.
  induction sorted_tasks as [| task rest IH]; intros c0 c Hr Hm Hc Hf; simpl; [eauto |].
  unfold for_body. simpl.
  destruct (while_loop_terminates daily_start daily_end max_session task (due task)
              fuel (wanted_minutes task) c [] Hr Hm) as ([bs c1] & Hw).
  { pose proof (Hf task ltac:(left)). pose proof (iterations_antitone (due task) _ _ Hc). lia. }
  unfold wanted_minutes in Hw. rewrite Hw. simpl.
  destruct (IH c0 c1 Hr Hm) as (runs & ->).
  - apply while_loop_emits in Hw as (rem' & He).
    apply emits_chained, chained_le in He; [lia | exact Hm].
  - intros t Ht. apply Hf. right. exact Ht.
  - simpl. eauto.
Qed.

(** All the blocks of the run are chained from the first cursor on. *)
Lemma runs_chained c runs :
  0 < max_session -> runs_from c runs ->
  chained c (blocks_of runs) (last_cursor c runs).
Proof.
  intros Hm. revert c. induction runs as [| r rest IH]; intros c H.
  - simpl. lia.
  - destruct H as ((rem' & He) & H). unfold blocks_of. simpl.
    eapply chained_app; [eapply emits_chained; eauto |]. apply IH, H.
Qed.

(** Every run is a run of the loop of its task from some cursor. *)
Lemma runs_each c runs r :
  runs_from c runs -> r ∈ runs ->
  exists c0 rem', emits (run_task r) (due (run_task r)) (wanted_minutes (run_task r))
                    c0 (run_blocks r) rem' (run_cursor r).
Proof.
  revert c. induction runs as [| r0 rest IH]; intros c H Hr; [inversion Hr |].
  destruct H as ((rem' & He) & H). apply elem_of_cons in Hr as [-> | Hr]; eauto.
Qed.

End Tasks.

(** ** The order of the tasks *)

Lemma tuple_le_key a b : tuple_le (key a) (key b) = true <-> processed_before a b.
Proof.
  unfold tuple_le, key, processed_before. simpl.
  rewrite orb_true_iff, andb_true_iff, Z.ltb_lt, Z.eqb_eq, Z.leb_le. lia.
Qed.

Lemma tuple_le_key_false a b : tuple_le (key a) (key b) = false -> processed_before b a.
Proof.
  unfold tuple_le, key, processed_before. simpl.
  rewrite orb_false_iff, andb_false_iff, Z.ltb_ge, Z.eqb_neq, Z.leb_gt. lia.
Qed.

Lemma processed_before_trans a b c :
  processed_before a b -> processed_before b c -> processed_before a c.
Proof. unfold processed_before. lia. Qed.

Lemma insert_perm x l : insert x l ≡ₚ x :: l.
Proof.
  induction l as [| y l IH]; simpl; [reflexivity |].
  destruct (tuple_le (key x) (key y)); [reflexivity |].
  rewrite IH. apply Permutation_swap.
Qed.

Lemma sorted_perm l : sorted l ≡ₚ l.
Proof.
  induction l as [| x l IH]; simpl; [reflexivity |].
  rewrite insert_perm, IH. reflexivity.
Qed.

Lemma insert_sorted x l :
  StronglySorted processed_before l -> StronglySorted processed_before (insert x l).
Proof.
  induction 1 as [| y l Hl IH Hy]; simpl.
  - repeat constructor.
  - destruct (tuple_le (key x) (key y)) eqn:E.
    + apply tuple_le_key in E. constructor; [constructor; assumption |].
      constructor; [exact E |].
      eapply Forall_impl; [exact Hy |]. intros z Hz.
      eapply processed_before_trans; eauto.
    + apply tuple_le_key_false in E. constructor; [exact IH |].
      rewrite insert_perm. constructor; assumption.
Qed.

Lemma sorted_sorted l : StronglySorted processed_before (sorted l).
Proof.
  induction l as [| x l IH]; simpl; [constructor | apply insert_sorted, IH].
Qed.

Lemma sorted_elem t l : t ∈ sorted l <-> t ∈ l.
Proof. rewrite sorted_perm. reflexivity. Qed.

(** A list already in order is left as it is (the sort is stable). *)
Lemma sorted_of_sorted l : StronglySorted processed_before l -> sorted l = l.
Proof.
  induction 1 as [| x l Hl IH Hx]; simpl; [reflexivity |].
  rewrite IH. destruct l as [| y l]; [reflexivity |]. simpl.
  apply Forall_cons in Hx as [Hxy _]. apply tuple_le_key in Hxy.
  rewrite Hxy. reflexivity.
Qed.

(** Two tasks due together: the larger priority number goes first. *)
Lemma sorted_tie a b :
  due a = due b -> default 3 (priority b) < default 3 (priority a) ->
  sorted [a; b] = [a; b] /\ sorted [b; a] = [a; b].
Proof.
  intros Hd Hp. unfold sorted. simpl.
  assert (tuple_le (key a) (key b) = true) as ->
    by (apply tuple_le_key; unfold processed_before; lia).
  assert (tuple_le (key b) (key a) = false) as ->; [| auto].
  destruct (tuple_le (key b) (key a)) eqn:E; [| reflexivity].
  apply tuple_le_key in E. unfold processed_before in E. lia.
Qed.

(** ** The whole run *)

Lemma generate_schedule_by_task fuel tasks profile now :
  generate_schedule fuel tasks profile now =
  omap blocks_of (schedule_by_task fuel tasks profile now).
Proof.
  unfold generate_schedule, schedule_by_task, daily_start_of, daily_end_of,
    max_session_of.
  rewrite for_loop_by_task, omap_omap. reflexivity.
Qed.

Lemma schedule_by_task_plan fuel tasks profile now plan :
  generate_schedule fuel tasks profile now = Done plan ->
  exists runs, schedule_by_task fuel tasks profile now = Done runs /\
               plan = blocks_of runs.
Proof. rewrite generate_schedule_by_task. apply omap_done. Qed.

Lemma schedule_by_task_runs fuel tasks profile now runs :
  schedule_by_task fuel tasks profile now = Done runs ->
  map run_task runs = sorted tasks /\
  runs_from (daily_start_of profile) (daily_end_of profile) (max_session_of profile)
    now runs.
Proof. apply by_task_runs. Qed.

Lemma blocks_of_elem b runs :
  b ∈ blocks_of runs <-> exists r, r ∈ runs /\ b ∈ run_blocks r.
Proof.
  unfold blocks_of. induction runs as [| r0 rest IH]; simpl.
  - split; [intros H; inversion H | intros (r & H & _); inversion H].
  - rewrite elem_of_app, IH. split.
    + intros [H | (r & Hr & Hb)]; [exists r0 | exists r]; split; auto; constructor; auto.
    + intros (r & Hr & Hb). apply elem_of_cons in Hr as [-> | Hr]; eauto.
Qed.

(** * The claims *)

Lemma valid_profile_start profile :
  valid_profile profile -> 0 <= daily_start_of profile <= 23.
Proof. unfold valid_profile. tauto. Qed.

Lemma valid_profile_session profile :
  valid_profile profile -> 0 < max_session_of profile.
Proof. unfold valid_profile. tauto. Qed.

Lemma valid_profile_window profile :
  valid_profile profile -> daily_start_of profile < daily_end_of profile.
Proof. unfold valid_profile. tauto. Qed.

Lemma valid_profile_default : valid_profile ∅.
Proof. vm_compute. intuition discriminate. Qed.

(** The plan of a run is chained from [now] on. *)
Lemma plan_chained fuel tasks profile now plan :
  0 < max_session_of profile ->
  generate_schedule fuel tasks profile now = Done plan ->
  exists c', chained now plan c'.
Proof.
  intros Hm H. apply schedule_by_task_plan in H as (runs & Hr & ->).
  apply schedule_by_task_runs in Hr as [_ Hr].
  eexists. eapply runs_chained; eauto.
Qed.


(** C9. For a valid profile the scheduler terminates: with a budget of one
    round per ten minutes between [now] and the latest due time (and one
    more), every run returns the same plan, because one round of the loop of
    a task either leaves the loop or appends a block and moves the cursor
    at least ten minutes forward. *)
Theorem generate_schedule_terminates (tasks : list Task) (profile : gmap string Z)
    (now : Z) :
  valid_profile profile ->
  (exists plan, forall fuel, (budget now tasks <= fuel)%nat ->
     generate_schedule fuel tasks profile now = Done plan) /\
  (forall fuel task rem c plan,
     let loop := while_loop (daily_start_of profile) (daily_end_of profile)
                   (max_session_of profile) in
     (exists c', c <= c' /\ loop (S fuel) task (due task) rem c plan = Done (plan, c')) \/
     (exists b c2, c + 10 * MINUTE <= c2 /\
        loop (S fuel) task (due task) rem c plan =
        loop fuel task (due task) (rem - minutes b)%Q c2 (plan ++ [b]))).
Proof.
  intros Hv. pose proof (valid_profile_start _ Hv) as Hs.
  pose proof (valid_profile_session _ Hv) as Hm. split.
  - destruct (by_task_terminates (daily_start_of profile) (daily_end_of profile)
                (max_session_of profile) (budget now tasks) (sorted tasks) now now
                Hs Hm ltac:(lia)) as (runs & Hruns).
    { intros t Ht. apply budget_elem, sorted_elem, Ht. }
    exists (blocks_of runs). intros fuel Hf.
    rewrite generate_schedule_by_task. unfold schedule_by_task.
    rewrite (by_task_fuel_mono _ _ _ _ _ _ _ _ Hf Hruns). reflexivity.
  - intros fuel task rem c plan. apply while_loop_step; assumption.
Qed.

(** C10. For a valid profile no block starts before [now]: the cursor
    starts at [now], the window snap never moves it back, and the plan is
    laid out from the cursor on. *)
Theorem blocks_not_in_the_past (fuel : nat) (tasks : list Task)
    (profile : gmap string Z) (now : Z) (plan : list StudyBlock) :
  valid_profile profile ->
  generate_schedule fuel tasks profile now = Done plan ->
  Forall (fun b => now <= start b) plan /\
  (forall c c', snap (daily_start_of profile) (daily_end_of profile) c = Done c' ->
                c <= c') /\
  (exists c', chained now plan c').
Proof.
  intros Hv H.
  destruct (plan_chained _ _ _ _ _ (valid_profile_session _ Hv) H) as (c' & Hc).
  split; [| split; [intros c c1; apply snap_forward | eauto]].
  apply Forall_forall. intros b Hb.
  destruct (chained_elem _ _ _ _ Hc Hb) as (? & _). assumption.
Qed.

(** C4. For a valid profile, each block of the plan starts at least ten
    minutes after the end of the block before it, and the blocks are in
    the order of their start times. *)
Theorem blocks_gap_and_order (fuel : nat) (tasks : list Task)
    (profile : gmap string Z) (now : Z) (plan : list StudyBlock) :
  valid_profile profile ->
  generate_schedule fuel tasks profile now = Done plan ->
  (forall i b b', plan !! i = Some b -> plan !! S i = Some b' ->
     end_ b + 10 * MINUTE <= start b') /\
  StronglySorted (fun b b' => start b < start b') plan.
Proof.
  intros Hv H.
  destruct (plan_chained _ _ _ _ _ (valid_profile_session _ Hv) H) as (c' & Hc).
  split.
  - intros i b b' Hi Hi'. eapply chained_consecutive; eauto.
  - eapply chained_sorted; eauto.
Qed.

(** The runs of the tasks make up the plan. *)
Lemma schedule_by_task_done fuel tasks profile now runs :
  schedule_by_task fuel tasks profile now = Done runs ->
  generate_schedule fuel tasks profile now = Done (blocks_of runs).
Proof. intros H. rewrite generate_schedule_by_task, H. reflexivity. Qed.

(** Every run of [schedule_by_task] is a run of the loop of its task. *)
Lemma schedule_by_task_each fuel tasks profile now runs r :
  schedule_by_task fuel tasks profile now = Done runs -> r ∈ runs ->
  exists c0 rem',
    emits (daily_start_of profile) (daily_end_of profile) (max_session_of profile)
      (run_task r) (due (run_task r)) (wanted_minutes (run_task r))
      c0 (run_blocks r) rem' (run_cursor r).
Proof.
  intros H Hr. apply schedule_by_task_runs in H as [_ H].
  eapply runs_each; eauto.
Qed.

(** C1, as the code has it. For a valid profile every block starts at an
    hour of the day inside the daily window; it lasts at most
    [max_session_minutes], so it ends less than [max_session_minutes] after
    the end of the window of the day it starts on (the end itself is not
    held inside the window). *)
Theorem blocks_start_in_window (fuel : nat) (tasks : list Task)
    (profile : gmap string Z) (now : Z) (plan : list StudyBlock) :
  valid_profile profile ->
  generate_schedule fuel tasks profile now = Done plan ->
  Forall (fun b =>
    daily_start_of profile <= hour (start b) < daily_end_of profile /\
    start b <= end_ b <= start b + max_session_of profile * MINUTE /\
    end_ b < midnight (start b) + daily_end_of profile * HOUR
             + max_session_of profile * MINUTE) plan.
Proof.
  intros Hv H. apply schedule_by_task_plan in H as (runs & Hr & ->).
  apply Forall_forall. intros b Hb.
  apply blocks_of_elem in Hb as (r & Hin & Hb).
  destruct (schedule_by_task_each _ _ _ _ _ _ Hr Hin) as (c0 & rem' & He).
  pose proof (emits_window _ _ _ _ _ _ _ _ _ _ (valid_profile_window _ Hv) He) as Hw.
  pose proof (emits_minutes _ _ _ _ _ _ _ _ _ _ (valid_profile_session _ Hv) He) as Hm.
  rewrite Forall_forall in Hw, Hm.
  specialize (Hw b Hb). destruct (Hm b Hb) as (Hpos & Hmax & Hend).
  apply timedelta_minutes_le in Hmax.
  apply Qlt_le_weak, timedelta_minutes_nonneg in Hpos.
  pose proof (hour_upper (start b)). rewrite HOUR_eq in *.
  split; [exact Hw |]. split; [lia | nia].
Qed.


(** C6, as the code has it. For a valid profile every block has positive
    [minutes], at most [max_session_minutes], and does not end before it
    starts; its length in microseconds is within one microsecond of its
    [minutes]; and when [estimated_hours * 60] is a whole number, the
    [minutes] of each block of the task are a positive whole number, the
    block ends after it starts, and it lasts exactly its [minutes]. *)
Theorem block_minutes_and_length (fuel : nat) (tasks : list Task)
    (profile : gmap string Z) (now : Z) (runs : list TaskRun) :
  valid_profile profile ->
  schedule_by_task fuel tasks profile now = Done runs ->
  generate_schedule fuel tasks profile now = Done (blocks_of runs) /\
  Forall (fun r =>
    Forall (fun b =>
      (0 < minutes b)%Q /\ (minutes b <= inject_Z (max_session_of profile))%Q /\
      start b <= end_ b /\
      (inject_Z (end_ b - start b) - 1 < minutes b * inject_Z MINUTE)%Q /\
      (minutes b * inject_Z MINUTE < inject_Z (end_ b - start b) + 1)%Q)
      (run_blocks r) /\
    (forall k : Z,
       (wanted_minutes (run_task r) == inject_Z k)%Q ->
       Forall (fun b => exists m : Z,
                 0 < m /\ (minutes b == inject_Z m)%Q /\ start b < end_ b /\
                 end_ b - start b = m * MINUTE) (run_blocks r))) runs.
Proof.
  intros Hv H. split; [apply schedule_by_task_done, H |].
  pose proof (valid_profile_session _ Hv) as Hms.
  apply Forall_forall. intros r Hr.
  destruct (schedule_by_task_each _ _ _ _ _ _ H Hr) as (c0 & rem' & He). split.
  - pose proof (emits_minutes _ _ _ _ _ _ _ _ _ _ Hms He) as Hm.
    eapply Forall_impl; [exact Hm |]. intros b (Hpos & Hmax & Hend). simpl.
    pose proof (timedelta_minutes_nonneg _ (Qlt_le_weak _ _ Hpos)).
    replace (end_ b - start b) with (timedelta_minutes (minutes b)) by lia.
    split; [exact Hpos |]. split; [exact Hmax |]. split; [lia |].
    apply round_half_even_within_one.
  - intros k Hk.
    pose proof (emits_whole _ _ _ _ _ _ _ _ _ _ Hms He k Hk) as Hw.
    eapply Forall_impl; [exact Hw |]. intros b (m & Hm & Hq & Hlen). simpl.
    exists m. rewrite MINUTE_eq in *. repeat split; try assumption; nia.
Qed.

Lemma window_profile_start ds de : daily_start_of (window_profile ds de) = ds.
Proof. unfold daily_start_of, get, window_profile. rewrite lookup_insert_eq. reflexivity. Qed.

Lemma window_profile_end ds de : daily_end_of (window_profile ds de) = de.
Proof.
  unfold daily_end_of, get, window_profile.
  rewrite lookup_insert_ne by discriminate. rewrite lookup_singleton_eq. reflexivity.
Qed.

Lemma window_profile_session ds de : max_session_of (window_profile ds de) = 50.
Proof.
  unfold max_session_of, get, window_profile.
  rewrite lookup_insert_ne by discriminate.
  rewrite lookup_singleton_ne by discriminate. reflexivity.
Qed.

(** C7, as the code has it. The profile is not checked before blocks are
    computed, and a [daily_end_hour] at or below [daily_start_hour], or
    outside 0..23, is no error: for every [daily_start_hour] in 0..23 and
    every [daily_end_hour], a one-hour task due in two days, scheduled at
    [daily_start_hour] o'clock of day 0, gets a first block of 50 minutes,
    at once when [daily_start_hour < daily_end_hour], and at
    [daily_start_hour] o'clock of the next day otherwise. *)
Theorem profile_not_validated (ds de : Z) :
  0 <= ds <= 23 ->
  let now := at_ 0 ds 0 in
  let first := if de <=? ds then at_ 1 ds 0 else now in
  exists fuel rest,
    generate_schedule fuel [two_day_task ds] (window_profile ds de) now =
    Done ({| block_title := "essay"; block_subject := EmptyString;
             start := first; end_ := first + 50 * MINUTE; minutes := 50 |} :: rest).
Proof.
  intros Hds now first.
  assert (Hsnap : snap ds de now = Done first).
  { unfold snap, replace_hour, first, now, at_.
    assert (Hh : hour (0 * DAY + ds * HOUR + 0 * MINUTE) = ds) by time_arith.
    rewrite Hh, Z.ltb_irrefl. destruct (de <=? ds); [| reflexivity].
    destruct (Z.leb_spec 0 ds); [| lia]. destruct (Z.leb_spec ds 23); [| lia].
    simpl. f_equal. time_arith. }
  destruct (while_loop_first_block ds de 50 (two_day_task ds) (at_ 2 ds 0)
              (1 * 60)%Q now first Hds ltac:(lia) ltac:(reflexivity))
    as (fuel & r & Hw).
  - unfold now, at_. rewrite DAY_eq. lia.
  - exact Hsnap.
  - change (timedelta_minutes (py_min 50 (1 * 60))) with (50 * MINUTE).
    unfold first, now, at_. rewrite DAY_eq, HOUR_eq, MINUTE_eq.
    destruct (de <=? ds); lia.
  - exists fuel, r.1. unfold generate_schedule.
    fold (daily_start_of (window_profile ds de)) (daily_end_of (window_profile ds de))
      (max_session_of (window_profile ds de)).
    rewrite window_profile_start, window_profile_end, window_profile_session.
    simpl. unfold for_body. simpl.
    change (while_loop ds de 50 fuel (two_day_task ds) (at_ 2 ds 0) (1 * 60) now [] =
            Done (make_block (two_day_task ds) first (first + 50 * MINUTE) 50 :: r.1, r.2))
      in Hw.
    unfold two_day_task, sample_task in *. simpl in *. rewrite Hw. reflexivity.
Qed.

(** C3. The tasks are processed in the order of [sorted]: a rearrangement of
    the input in which each task comes before those due later and, among
    those due at the same time, before those with a smaller priority number
    (3 when absent). So of two tasks due at the same time, given in either
    order, the blocks of the one with the larger priority number come
    first in the plan and start earlier than all blocks of the other. *)
Theorem tasks_processed_by_due_then_priority (fuel : nat) (tasks : list Task)
    (profile : gmap string Z) (now : Z) (runs : list TaskRun) :
  valid_profile profile ->
  schedule_by_task fuel tasks profile now = Done runs ->
  sorted tasks ≡ₚ tasks /\
  StronglySorted processed_before (sorted tasks) /\
  map run_task runs = sorted tasks /\
  generate_schedule fuel tasks profile now = Done (blocks_of runs) /\
  (forall a b,
     due a = due b -> default 3 (priority b) < default 3 (priority a) ->
     tasks = [a; b] \/ tasks = [b; a] ->
     exists ra rb,
       runs = [ra; rb] /\ run_task ra = a /\ run_task rb = b /\
       blocks_of runs = run_blocks ra ++ run_blocks rb /\
       forall x y, x ∈ run_blocks ra -> y ∈ run_blocks rb -> start x < start y).
Proof.
  intros Hv H. pose proof (schedule_by_task_runs _ _ _ _ _ H) as [Hmap Hruns].
  split; [apply sorted_perm |]. split; [apply sorted_sorted |].
  split; [exact Hmap |]. split; [apply schedule_by_task_done, H |].
  intros a b Hd Hp Ht.
  assert (Hs : sorted tasks = [a; b]).
  { destruct (sorted_tie a b Hd Hp) as [H1 H2]. destruct Ht as [-> | ->]; assumption. }
  rewrite Hs in Hmap.
  destruct runs as [| ra [| rb [| ? ?]]]; try discriminate.
  injection Hmap as Ha Hb. exists ra, rb.
  assert (Hb_of : blocks_of [ra; rb] = run_blocks ra ++ run_blocks rb).
  { unfold blocks_of. simpl. rewrite app_nil_r. reflexivity. }
  repeat split; try assumption.
  intros x y Hx Hy.
  pose proof (runs_chained _ _ _ _ _ (valid_profile_session _ Hv) Hruns) as Hc.
  rewrite Hb_of in Hc.
  pose proof (chained_app_elem _ _ _ _ _ _ Hc Hx Hy).
  assert (x ∈ run_blocks ra ++ run_blocks rb) as Hx' by (apply elem_of_app; auto).
  destruct (chained_elem _ _ _ _ Hc Hx') as (_ & ? & _).
  rewrite MINUTE_eq in *. lia.
Qed.

(** * The claims on sample inputs *)

Ltac evaluated := vm_compute; intuition (discriminate || reflexivity).

Lemma get_upcoming_blocks_sample :
  let b24 := {| block_title := "a"; block_subject := ""; start := at_ 1 9 0;
                end_ := at_ 1 9 50; minutes := 50 |} in
  let b25 := {| block_title := "b"; block_subject := ""; start := at_ 1 10 0;
                end_ := at_ 1 10 50; minutes := 50 |} in
  let s := {| profile := ∅; tasks := []; plans := [b25; b24] |} in
  get_upcoming_blocks None (at_ 0 9 0) s = ([b24], s).
Proof. vm_compute. reflexivity. Qed.

Lemma generate_schedule_terminates_witness :
  valid_profile ∅ /\
  exists plan, forall fuel, (budget (at_ 0 9 0) [reading; project] <= fuel)%nat ->
    generate_schedule fuel [reading; project] ∅ (at_ 0 9 0) = Done plan.
Proof.
  split; [evaluated |].
  apply (generate_schedule_terminates [reading; project] ∅ (at_ 0 9 0)). evaluated.
Defined.

Lemma blocks_not_in_the_past_witness :
  valid_profile ∅ /\
  exists plan, generate_schedule 20 [essay] ∅ (at_ 0 21 30) = Done plan /\
               Forall (fun b => at_ 0 21 30 <= start b) plan.
Proof.
  split; [evaluated |]. eexists. split; [vm_compute; reflexivity |].
  apply (blocks_not_in_the_past 20 [essay] ∅ (at_ 0 21 30));
    [evaluated | vm_compute; reflexivity].
Defined.

Lemma blocks_gap_and_order_witness :
  valid_profile ∅ /\
  exists plan, generate_schedule 20 [reading; project] ∅ (at_ 0 9 0) = Done plan /\
    (forall i b b', plan !! i = Some b -> plan !! S i = Some b' ->
       end_ b + 10 * MINUTE <= start b') /\
    StronglySorted (fun b b' => start b < start b') plan.
Proof.
  split; [evaluated |]. eexists. split; [vm_compute; reflexivity |].
  apply (blocks_gap_and_order 20 [reading; project] ∅ (at_ 0 9 0));
    [evaluated | vm_compute; reflexivity].
Defined.

(** C1 fails as stated: with the default window (8 to 22), a session begun
    at 21:30 runs until 22:20. *)
Lemma late_session_ends_after_window :
  valid_profile ∅ /\
  exists plan b,
    generate_schedule 20 [essay] ∅ (at_ 0 21 30) = Done plan /\ b ∈ plan /\
    start b = at_ 0 21 30 /\ end_ b = at_ 0 22 20 /\
    ~ end_ b <= midnight (start b) + daily_end_of ∅ * HOUR.
Proof.
  split; [evaluated |]. eexists _, _.
  split; [vm_compute; reflexivity |]. split; [left |].
  split; [reflexivity |]. split; [reflexivity |]. vm_compute. intros H. apply H. reflexivity.
Qed.

Lemma blocks_start_in_window_witness :
  valid_profile ∅ /\
  exists plan, generate_schedule 20 [essay] ∅ (at_ 0 21 30) = Done plan /\
    Forall (fun b =>
      daily_start_of ∅ <= hour (start b) < daily_end_of ∅ /\
      start b <= end_ b <= start b + max_session_of ∅ * MINUTE /\
      end_ b < midnight (start b) + daily_end_of ∅ * HOUR + max_session_of ∅ * MINUTE)
      plan.
Proof.
  split; [evaluated |]. eexists. split; [vm_compute; reflexivity |].
  apply (blocks_start_in_window 20 [essay] ∅ (at_ 0 21 30));
    [evaluated | vm_compute; reflexivity].
Defined.


(** C6 fails as stated: an eighth of an hour gives a block of seven and a
    half minutes, and [2^-40] hours give a block that ends when it starts,
    its length being rounded to the microsecond. *)
Lemma block_minutes_fractional_or_lost :
  valid_profile ∅ /\
  (exists plan b,
     generate_schedule 20 [quiz] ∅ (at_ 0 9 0) = Done plan /\ b ∈ plan /\
     (minutes b == 15 # 2)%Q /\ ~ exists k : Z, (minutes b == inject_Z k)%Q) /\
  (exists plan b,
     generate_schedule 20 [glance] ∅ (at_ 0 9 0) = Done plan /\ b ∈ plan /\
     (0 < minutes b)%Q /\ ~ start b < end_ b /\
     ~ (minutes b * inject_Z MINUTE == inject_Z (end_ b - start b))%Q).
Proof.
  split; [evaluated |]. split.
  - eexists _, _. split; [vm_compute; reflexivity |]. split; [left |].
    split; [reflexivity |]. intros (k & Hk). unfold Qeq in Hk. simpl in Hk. lia.
  - eexists _, _. split; [vm_compute; reflexivity |]. split; [left |].
    split; [reflexivity |]. split; [simpl; lia |]. vm_compute. discriminate.
Qed.

Lemma block_minutes_and_length_witness :
  valid_profile ∅ /\
  exists runs, schedule_by_task 20 [essay; quiz] ∅ (at_ 0 9 0) = Done runs /\
    Forall (fun r =>
      Forall (fun b =>
        (0 < minutes b)%Q /\ (minutes b <= inject_Z (max_session_of ∅))%Q /\
        start b <= end_ b /\
        (inject_Z (end_ b - start b) - 1 < minutes b * inject_Z MINUTE)%Q /\
        (minutes b * inject_Z MINUTE < inject_Z (end_ b - start b) + 1)%Q)
        (run_blocks r) /\
      (forall k : Z,
         (wanted_minutes (run_task r) == inject_Z k)%Q ->
         Forall (fun b => exists m : Z,
                   0 < m /\ (minutes b == inject_Z m)%Q /\ start b < end_ b /\
                   end_ b - start b = m * MINUTE) (run_blocks r))) runs.
Proof.
  split; [evaluated |]. eexists. split; [vm_compute; reflexivity |].
  apply (block_minutes_and_length 20 [essay; quiz] ∅ (at_ 0 9 0));
    [evaluated | vm_compute; reflexivity].
Defined.

(** C7 fails as stated: a window that ends where it starts, and one whose
    end is no hour of the day, both give a plan with blocks. *)
Lemma invalid_profiles_give_blocks :
  (daily_end_of empty_window <= daily_start_of empty_window /\
   exists plan b,
     generate_schedule 20 [essay] empty_window (at_ 0 9 0) = Done plan /\ b ∈ plan) /\
  (~ 0 <= daily_end_of endless_window <= 23 /\
   exists plan b,
     generate_schedule 20 [essay] endless_window (at_ 0 9 0) = Done plan /\ b ∈ plan).
Proof.
  split.
  - split; [vm_compute; discriminate |].
    eexists _, _. split; [vm_compute; reflexivity | left].
  - split; [vm_compute; intros [_ H]; apply H; reflexivity |].
    eexists _, _. split; [vm_compute; reflexivity | left].
Qed.

Lemma profile_not_validated_witness :
  0 <= 8 <= 23 /\
  exists fuel rest,
    generate_schedule fuel [two_day_task 8] (window_profile 8 8) (at_ 0 8 0) =
    Done ({| block_title := "essay"; block_subject := EmptyString;
             start := at_ 1 8 0; end_ := at_ 1 8 0 + 50 * MINUTE; minutes := 50 |}
            :: rest).
Proof.
  split; [lia |]. apply (profile_not_validated 8 8). lia.
Defined.

Lemma tasks_processed_by_due_then_priority_witness :
  valid_profile ∅ /\
  exists runs, schedule_by_task 20 [reading; project] ∅ (at_ 0 9 0) = Done runs /\
    exists ra rb,
      runs = [ra; rb] /\ run_task ra = project /\ run_task rb = reading /\
      blocks_of runs = run_blocks ra ++ run_blocks rb /\
      forall x y, x ∈ run_blocks ra -> y ∈ run_blocks rb -> start x < start y.
Proof.
  split; [evaluated |]. eexists. split; [vm_compute; reflexivity |].
  apply (tasks_processed_by_due_then_priority 20 [reading; project] ∅ (at_ 0 9 0));
    [evaluated | vm_compute; reflexivity | reflexivity | reflexivity | right; reflexivity].
Defined.

(** * Further properties of the code *)

(** ** The stores *)

(** X1. After [save_profile], a setting is read from the saved preferences
    when they have it and from the profile as it was otherwise (and from
    the default when neither has it); tasks and plans are not touched. *)
Theorem save_profile_get (preferences : gmap string Z) (s : UserState)
    (k : string) (dflt : Z) :
  get (profile (save_profile preferences s)) k dflt =
    match preferences !! k with
    | Some v => v
    | None => get (profile s) k dflt
    end /\
  tasks (save_profile preferences s) = tasks s /\
  plans (save_profile preferences s) = plans s.
Proof.
  split; [| split; reflexivity]. unfold get, save_profile. simpl.
  destruct (preferences !! k) as [v |] eqn:E.
  - rewrite (lookup_union_Some_l _ _ _ _ E). reflexivity.
  - rewrite lookup_union_r by exact E. reflexivity.
Qed.

(** X2. Saving preferences twice is saving their merge, the later ones
    winning; saving the same preferences again, or none, changes nothing
    more. *)
Theorem save_profile_twice (p1 p2 : gmap string Z) (s : UserState) :
  save_profile p2 (save_profile p1 s) = save_profile (p2 ∪ p1) s /\
  save_profile p1 (save_profile p1 s) = save_profile p1 s /\
  save_profile ∅ s = s.
Proof.
  unfold save_profile. simpl. split; [| split].
  - rewrite (assoc_L (∪)). reflexivity.
  - rewrite (assoc_L (∪)), (idemp_L (∪)). reflexivity.
  - rewrite (left_id_L ∅ (∪)). destruct s; reflexivity.
Qed.

(** X3. Tasks added one after the other are listed after those already
    there, in the order they were added; profile and plans are not
    touched. *)
Theorem add_task_list_tasks (new_tasks : list Task) (s : UserState) :
  let s' := foldl (fun st t => add_task t st) s new_tasks in
  list_tasks s' = list_tasks s ++ new_tasks /\
  profile s' = profile s /\ plans s' = plans s.
Proof.
  revert s. induction new_tasks as [| t rest IH]; intros s; simpl.
  - rewrite app_nil_r. auto.
  - destruct (IH (add_task t s)) as (H1 & H2 & H3). simpl in *.
    rewrite H1, H2, H3. unfold list_tasks, add_task. simpl.
    rewrite <- app_assoc. auto.
Qed.

(** ** The upcoming blocks *)

Lemma filter_window_late lo hi (l : list StudyBlock) :
  Forall (fun b => hi < start b) l ->
  filter (fun b => lo <= start b <= hi) l = [].
Proof.
  induction 1 as [| b l Hb Hl IH]; [reflexivity |].
  rewrite filter_cons_False by lia. exact IH.
Qed.

Lemma filter_window_sorted lo hi (l : list StudyBlock) :
  StronglySorted (fun b b' => start b < start b') l ->
  Forall (fun b => lo <= start b) l ->
  exists n, filter (fun b => lo <= start b <= hi) l = take n l.
Proof.
  induction 1 as [| b l Hl IH Hb]; intros Hlo.
  - exists O. reflexivity.
  - apply Forall_cons in Hlo as [Hb_lo Hlo].
    destruct (decide (start b <= hi)) as [Hhi | Hhi].
    + destruct (IH Hlo) as (n & Hn). exists (S n).
      rewrite filter_cons_True by lia. simpl. rewrite Hn. reflexivity.
    + exists O. rewrite filter_cons_False by lia.
      apply filter_window_late. eapply Forall_impl; [exact Hb |].
      intros b' Hb'. simpl in Hb'. lia.
Qed.

(** X4. Asking for the upcoming blocks of the blocks just returned gives
    them all back: with the answer saved as the plan, the same query
    returns the same answer. *)
Theorem get_upcoming_blocks_again (hours_ahead : option Z) (now : Z)
    (s : UserState) :
  let r := (get_upcoming_blocks hours_ahead now s).1 in
  (get_upcoming_blocks hours_ahead now (save_plan r s)).1 = r.
Proof.
  simpl. rewrite list_filter_filter. apply list_filter_iff. tauto.
Qed.


(** X6. For a valid profile, the upcoming blocks of a plan just generated
    at [now] and saved are the first blocks of that plan, as many as start
    within the horizon. *)
Theorem get_upcoming_blocks_of_fresh_plan (fuel : nat) (tasks : list Task)
    (profile : gmap string Z) (now : Z) (plan : list StudyBlock)
    (hours_ahead : option Z) (s : UserState) :
  valid_profile profile ->
  generate_schedule fuel tasks profile now = Done plan ->
  exists n, (get_upcoming_blocks hours_ahead now (save_plan plan s)).1 = take n plan.
Proof.
  intros Hv H.
  destruct (plan_chained _ _ _ _ _ (valid_profile_session _ Hv) H) as (c' & Hc).
  simpl. apply filter_window_sorted.
  - eapply chained_sorted; eauto.
  - apply Forall_forall. intros b Hb.
    destruct (chained_elem _ _ _ _ Hc Hb) as (? & _). assumption.
Qed.

(** ** More on the loop of one task *)

Section MoreLoopFacts.

Variables daily_start daily_end max_session : Z.
Variable task : Task.
Variable due : Z.

Local Abbreviation emits := (emits daily_start daily_end max_session task due).
Local Abbreviation snap := (snap daily_start daily_end).

(** Nothing is appended when there is nothing left to place or the due time
    is reached. *)
Lemma emits_no_work rem c blocks rem' c' :
  (rem <= 0)%Q \/ due <= c ->
  emits rem c blocks rem' c' -> blocks = [] /\ c' = c.
Proof.
  intros Hno H.
  assert (Hg : Qltb 0 rem && (c <? due) = false).
  { apply andb_false_iff. destruct Hno as [Hr | Hc].
    - left. apply Qltb_ge, Hr.
    - right. apply Z.ltb_ge, Hc. }
  inversion H; subst; [auto | congruence | congruence].
Qed.

Lemma emits_titles rem c blocks rem' c' :
  emits rem c blocks rem' c' ->
  Forall (fun b => block_title b = title task /\
                   block_subject b = default EmptyString (subject task)) blocks.
Proof. intros H. induction H; constructor; auto. Qed.

(** Every block but the last is a full session. *)
Lemma emits_full_sessions rem c blocks rem' c' :
  emits rem c blocks rem' c' ->
  forall i b, blocks !! i = Some b -> (S i < length blocks)%nat ->
              minutes b = inject_Z max_session.
Proof.
  intros H. induction H; intros i b Hi Hlen; try discriminate.
  destruct i as [| i].
  - simpl in Hi. injection Hi as <-. simpl. unfold py_min in *.
    destruct (Qltb rem (inject_Z max_session)) eqn:E; [| reflexivity].
    exfalso. apply emits_no_work in H2 as [-> _]; [simpl in Hlen; lia |].
    left. lra.
  - simpl in Hi, Hlen. apply (IHemits i b Hi). lia.
Qed.

(** The first block starts where the snap puts the cursor; without a block
    the cursor stays or is snapped. *)
Lemma emits_first rem c b blocks rem' c' :
  emits rem c (b :: blocks) rem' c' -> snap c = Done (start b).
Proof. intros H. inversion H; subst. assumption. Qed.

Lemma emits_none rem c rem' c' :
  emits rem c [] rem' c' -> c' = c \/ snap c = Done c'.
Proof. intros H. inversion H; subst; auto. Qed.

End MoreLoopFacts.

Section MoreTasks.

Variables daily_start daily_end max_session : Z.

Local Abbreviation emits := (emits daily_start daily_end max_session).
Local Abbreviation runs_from := (runs_from daily_start daily_end max_session).
Local Abbreviation for_loop := (for_loop daily_start daily_end max_session).
Local Abbreviation snap := (snap daily_start daily_end).

(** Every run starts at a cursor no earlier than the first one. *)
Lemma runs_each_from c runs r :
  0 < max_session -> runs_from c runs -> r ∈ runs ->
  exists c0 rem', c <= c0 /\
    emits (run_task r) (due (run_task r)) (wanted_minutes (run_task r))
      c0 (run_blocks r) rem' (run_cursor r).
Proof.
  intros Hm. revert c. induction runs as [| r0 rest IH]; intros c H Hr; [inversion Hr |].
  destruct H as ((rem' & He) & H). apply elem_of_cons in Hr as [-> | Hr].
  - exists c, rem'. split; [lia | exact He].
  - destruct (IH _ H Hr) as (c0 & rem0 & Hc & He0). exists c0, rem0.
    split; [| exact He0].
    apply emits_chained, chained_le in He; [lia | exact Hm].
Qed.

(** Tasks with no work or past their due time leave plan and cursor as
    they are. *)
Lemma for_loop_skip fuel sorted_tasks plan c :
  Forall (fun t => due t <= c \/ (wanted_minutes t <= 0)%Q) sorted_tasks ->
  for_loop (S fuel) sorted_tasks (plan, c) = Done (plan, c).
Proof.
  induction 1 as [| t rest Ht Hrest IH]; [reflexivity |].
  simpl in *. unfold for_body at 1. simpl.
  assert (Hg : Qltb 0 (wanted_minutes t) && (c <? due t) = false).
  { apply andb_false_iff. destruct Ht as [Hc | Hw].
    - right. apply Z.ltb_ge, Hc.
    - left. apply Qltb_ge, Hw. }
  unfold wanted_minutes in Hg. rewrite Hg. simpl. exact IH.
Qed.

End MoreTasks.

(** ** The plan *)

(** X7. When every task is due at or before [now] or has no work to place
    ([estimated_hours] zero or negative), and so also when there are no
    tasks, the plan is empty and nothing fails, whatever the profile is,
    valid or not. *)
Theorem nothing_to_schedule (fuel : nat) (tasks : list Task)
    (profile : gmap string Z) (now : Z) :
  Forall (fun t => due t <= now \/ (wanted_minutes t <= 0)%Q) tasks ->
  generate_schedule (S fuel) tasks profile now = Done [].
Proof.
  intros H. unfold generate_schedule. rewrite for_loop_skip; [reflexivity |].
  apply Forall_forall. intros t Ht. rewrite sorted_elem in Ht.
  rewrite Forall_forall in H. exact (H t Ht).
Qed.

(** X8. For a valid profile, a task that is due at or before [now], or
    whose [estimated_hours] is zero or negative, gets no block, whatever
    the other tasks are. *)
Theorem overdue_task_gets_no_block (fuel : nat) (tasks : list Task)
    (profile : gmap string Z) (now : Z) (runs : list TaskRun) (r : TaskRun) :
  valid_profile profile ->
  schedule_by_task fuel tasks profile now = Done runs ->
  r ∈ runs ->
  due (run_task r) <= now \/ (wanted_minutes (run_task r) <= 0)%Q ->
  run_blocks r = [].
Proof.
  intros Hv H Hr Hno. apply schedule_by_task_runs in H as [_ H].
  destruct (runs_each_from _ _ _ _ _ _ (valid_profile_session _ Hv) H Hr)
    as (c0 & rem' & Hc & He).
  apply emits_no_work in He as [He _]; [exact He |].
  destruct Hno; [right; lia | left; assumption].
Qed.

(** X9. Every block carries the title of the task it was made for, and its
    subject, or the empty string when the task has none. *)
Theorem blocks_carry_title_and_subject (fuel : nat) (tasks : list Task)
    (profile : gmap string Z) (now : Z) (runs : list TaskRun) :
  schedule_by_task fuel tasks profile now = Done runs ->
  Forall (fun r =>
    Forall (fun b => block_title b = title (run_task r) /\
                     block_subject b = default EmptyString (subject (run_task r)))
      (run_blocks r)) runs.
Proof.
  intros H. apply Forall_forall. intros r Hr.
  destruct (schedule_by_task_each _ _ _ _ _ _ H Hr) as (c0 & rem' & He).
  eapply emits_titles; eauto.
Qed.

(** X10. The work of a task is cut into full sessions: each of its blocks
    but the last has exactly [max_session_minutes] minutes, and the last
    has no more. *)
Theorem blocks_are_full_sessions (fuel : nat) (tasks : list Task)
    (profile : gmap string Z) (now : Z) (runs : list TaskRun) :
  schedule_by_task fuel tasks profile now = Done runs ->
  Forall (fun r =>
    (forall i b, run_blocks r !! i = Some b -> (S i < length (run_blocks r))%nat ->
                 minutes b = inject_Z (max_session_of profile)) /\
    Forall (fun b => (minutes b <= inject_Z (max_session_of profile))%Q)
      (run_blocks r)) runs.
Proof.
  intros H. apply Forall_forall. intros r Hr.
  destruct (schedule_by_task_each _ _ _ _ _ _ H Hr) as (c0 & rem' & He). split.
  - eapply emits_full_sessions; eauto.
  - clear Hr H. induction He; constructor; auto. simpl. apply py_min_le_l.
Qed.


(** ** The order of the tasks, again *)

Lemma insert_filter_key k x l :
  filter (fun t => key t = k) (insert x l) = filter (fun t => key t = k) (x :: l).
Proof.
  induction l as [| y l IH]; simpl; [reflexivity |].
  destruct (tuple_le (key x) (key y)) eqn:E; [reflexivity |].
  rewrite filter_cons, IH. rewrite !filter_cons.
  destruct (decide (key y = k)) as [Hy | Hy], (decide (key x = k)) as [Hx | Hx];
    try reflexivity.
  exfalso. assert (tuple_le (key x) (key y) = true); [| congruence].
  rewrite Hx, Hy. unfold tuple_le. rewrite Z.eqb_refl, Z.leb_refl.
  apply orb_true_r.
Qed.

(** X12. The sort is stable: tasks with the same due time and the same
    priority are processed in the order in which they were given. *)
Theorem sorted_stable (k : Z * Z) (tasks : list Task) :
  filter (fun t => key t = k) (sorted tasks) = filter (fun t => key t = k) tasks.
Proof.
  induction tasks as [| x l IH]; simpl; [reflexivity |].
  rewrite insert_filter_key, !filter_cons, IH. reflexivity.
Qed.

Lemma processed_before_antisym a b :
  processed_before a b -> processed_before b a -> key a = key b.
Proof. unfold processed_before, key. intros H1 H2. f_equal; lia. Qed.

Lemma sorted_unique (l1 : list Task) : forall l2,
  (forall a b, a ∈ l1 -> b ∈ l1 -> key a = key b -> a = b) ->
  StronglySorted processed_before l1 -> StronglySorted processed_before l2 ->
  l1 ≡ₚ l2 -> l1 = l2.
Proof.
  induction l1 as [| x l1 IH]; intros l2 Hk H1 H2 Hp.
  - apply Permutation_nil in Hp. congruence.
  - destruct l2 as [| y l2]; [apply Permutation_sym, Permutation_nil in Hp; discriminate |].
    apply StronglySorted_inv in H1 as [H1 Hx]. apply StronglySorted_inv in H2 as [H2 Hy].
    assert (Hxy : x = y).
    { assert (Hx2 : x ∈ y :: l2) by (rewrite <- Hp; left).
      assert (Hy1 : y ∈ x :: l1) by (rewrite Hp; left).
      apply elem_of_cons in Hx2 as [? | Hx2]; [assumption |].
      apply elem_of_cons in Hy1 as [? | Hy1]; [congruence |].
      rewrite Forall_forall in Hx, Hy.
      apply Hk; [left | right; exact Hy1 |].
      apply processed_before_antisym; [apply Hx, Hy1 | apply Hy, Hx2]. }
    subst y. f_equal. apply IH; try assumption.
    + intros a b Ha Hb. apply Hk; right; assumption.
    + eapply Permutation_cons_inv; eauto.
Qed.

(** X13. When no two different tasks have both the same due time and the
    same priority, the plan does not depend on the order in which the
    tasks are given. *)
Theorem plan_independent_of_task_order (fuel : nat) (tasks tasks' : list Task)
    (profile : gmap string Z) (now : Z) :
  tasks ≡ₚ tasks' ->
  (forall a b, a ∈ tasks -> b ∈ tasks -> key a = key b -> a = b) ->
  sorted tasks = sorted tasks' /\
  generate_schedule fuel tasks profile now = generate_schedule fuel tasks' profile now.
Proof.
  intros Hp Hk.
  assert (Hs : sorted tasks = sorted tasks').
  { apply sorted_unique; try apply sorted_sorted.
    - intros a b Ha Hb. rewrite sorted_elem in Ha, Hb. auto.
    - rewrite !sorted_perm. exact Hp. }
  split; [exact Hs |]. unfold generate_schedule. rewrite Hs. reflexivity.
Qed.

(** ** The window snap, again *)

(** X14. With a non-empty window, a cursor that was snapped stays where it
    is when snapped again; the snap moves the cursor forward by less than a
    day, and when it moves it, to [daily_start_hour] o'clock sharp. *)
Theorem snap_settles (daily_start daily_end current c : Z) :
  daily_start < daily_end ->
  snap daily_start daily_end current = Done c ->
  snap daily_start daily_end c = Done c /\
  current <= c < current + DAY /\
  (c = current \/ c = midnight c + daily_start * HOUR).
Proof.
  intros Hw H. pose proof (snap_in_window _ _ _ _ Hw H) as Hin.
  pose proof (snap_forward _ _ _ _ H) as Hfw. split; [| split].
  - unfold snap. destruct (Z.ltb_spec (hour c) daily_start); [lia |].
    destruct (Z.leb_spec daily_end (hour c)); [lia | reflexivity].
  - split; [exact Hfw |]. apply snap_cases in H.
    pose proof (midnight_le current). pose proof (hour_lower current).
    destruct H as [(? & ? & ->) | [(? & ? & ? & ->) | (? & ->)]];
      rewrite ?DAY_eq, ?HOUR_eq in *; nia.
  - apply snap_cases in H.
    destruct H as [(? & ? & ->) | [(? & ? & ? & ->) | (? & ->)]]; auto; right.
    + rewrite midnight_of_replace by lia. reflexivity.
    + replace (midnight current + DAY + daily_start * HOUR)
        with (midnight (current + timedelta_days 1) + daily_start * HOUR)
        by (rewrite midnight_next_day; reflexivity).
      rewrite midnight_of_replace by lia. reflexivity.
Qed.

(** ** Tasks one after the other *)

Lemma blocks_of_app l1 l2 : blocks_of (l1 ++ l2) = blocks_of l1 ++ blocks_of l2.
Proof. unfold blocks_of. rewrite map_app, concat_app. reflexivity. Qed.

(** X15. For a valid profile the blocks of different tasks do not
    interleave: every block of a task processed earlier ends at least ten
    minutes before any block of a task processed later starts. *)
Theorem tasks_do_not_interleave (fuel : nat) (tasks : list Task)
    (profile : gmap string Z) (now : Z) (runs : list TaskRun)
    (i j : nat) (ra rb : TaskRun) :
  valid_profile profile ->
  schedule_by_task fuel tasks profile now = Done runs ->
  (i < j)%nat -> runs !! i = Some ra -> runs !! j = Some rb ->
  forall x y, x ∈ run_blocks ra -> y ∈ run_blocks rb ->
              end_ x + 10 * MINUTE <= start y.
Proof.
  intros Hv H Hij Hi Hj x y Hx Hy.
  apply schedule_by_task_runs in H as [_ H].
  pose proof (runs_chained _ _ _ _ _ (valid_profile_session _ Hv) H) as Hc.
  rewrite <- (take_drop_middle runs i ra Hi) in Hc.
  change (take i runs ++ ra :: drop (S i) runs)
    with (take i runs ++ [ra] ++ drop (S i) runs) in Hc.
  rewrite app_assoc, blocks_of_app in Hc.
  eapply chained_app_elem; [exact Hc | |].
  - apply blocks_of_elem. exists ra. split; [| exact Hx].
    apply elem_of_app. right. left.
  - apply blocks_of_elem. exists rb. split; [| exact Hy].
    apply list_elem_of_lookup. exists (j - S i)%nat.
    rewrite lookup_drop. replace (S i + (j - S i))%nat with j by lia. exact Hj.
Qed.

Section FirstBlock.

Variables daily_start daily_end max_session : Z.
Hypothesis window : daily_start < daily_end.

Local Abbreviation runs_from := (runs_from daily_start daily_end max_session).
Local Abbreviation snap := (snap daily_start daily_end).

Lemma runs_first_block runs : forall c b rest,
  runs_from c runs -> blocks_of runs = b :: rest -> snap c = Done (start b).
Proof.
  induction runs as [| r runs IH]; intros c b rest H Hb; [discriminate |].
  destruct H as ((rem' & He) & H). unfold blocks_of in Hb. simpl in Hb.
  destruct (run_blocks r) as [| b0 bs] eqn:E.
  - simpl in Hb. specialize (IH _ _ _ H Hb).
    apply emits_none in He as [Heq | He]; [rewrite Heq in IH; exact IH |].
    destruct (snap_settles _ _ _ _ window He) as (Hs & _).
    rewrite Hs in IH. injection IH as <-. exact He.
  - simpl in Hb. injection Hb as <- _. eapply emits_first; eauto.
Qed.

End FirstBlock.

(** X16. For a valid profile no time is lost before the first block: it
    starts at [now] when [now] is inside the daily window, and otherwise at
    the next [daily_start_hour] o'clock. *)
Theorem first_block_starts_at_snapped_now (fuel : nat) (tasks : list Task)
    (profile : gmap string Z) (now : Z) (b : StudyBlock) (plan : list StudyBlock) :
  valid_profile profile ->
  generate_schedule fuel tasks profile now = Done (b :: plan) ->
  snap (daily_start_of profile) (daily_end_of profile) now = Done (start b) /\
  (daily_start_of profile <= hour now < daily_end_of profile -> start b = now).
Proof.
  intros Hv H. apply schedule_by_task_plan in H as (runs & Hr & Hb).
  apply schedule_by_task_runs in Hr as [_ Hr].
  pose proof (runs_first_block _ _ _ (valid_profile_window _ Hv) _ _ _ _ Hr
                (eq_sym Hb)) as Hs.
  split; [exact Hs |]. intros Hin. unfold snap in Hs.
  destruct (Z.ltb_spec (hour now) (daily_start_of profile)); [lia |].
  destruct (Z.leb_spec (daily_end_of profile) (hour now)); [lia |].
  congruence.
Qed.

(** ** The further properties on sample inputs *)


Lemma get_upcoming_blocks_of_fresh_plan_witness :
  valid_profile ∅ /\
  exists plan, generate_schedule 20 [essay] ∅ (at_ 0 21 30) = Done plan /\
    exists n, (get_upcoming_blocks (Some 2) (at_ 0 21 30)
                 (save_plan plan sample_state)).1 = take n plan.
Proof.
  split; [evaluated |]. eexists. split; [vm_compute; reflexivity |].
  apply (get_upcoming_blocks_of_fresh_plan 20 [essay] ∅ (at_ 0 21 30));
    [evaluated | vm_compute; reflexivity].
Defined.

Lemma nothing_to_schedule_witness :
  Forall (fun t => due t <= at_ 0 9 0 \/ (wanted_minutes t <= 0)%Q) [stale] /\
  generate_schedule 1 [stale] late_start (at_ 0 9 0) = Done [].
Proof.
  split; [constructor; [left; vm_compute; discriminate | constructor] |].
  apply (nothing_to_schedule 0 [stale] late_start (at_ 0 9 0)).
  constructor; [left; vm_compute; discriminate | constructor].
Defined.

Lemma overdue_task_gets_no_block_witness :
  valid_profile ∅ /\
  exists runs r,
    schedule_by_task 20 [essay; stale] ∅ (at_ 0 9 0) = Done runs /\ r ∈ runs /\
    run_task r = stale /\ run_blocks r = [].
Proof.
  split; [evaluated |]. eexists _, _.
  split; [vm_compute; reflexivity |]. split; [left |]. split; [reflexivity |].
  eapply (overdue_task_gets_no_block 20 [essay; stale] ∅ (at_ 0 9 0));
    [evaluated | vm_compute; reflexivity | left | left; vm_compute; discriminate].
Defined.

Lemma blocks_carry_title_and_subject_witness :
  exists runs, schedule_by_task 20 [essay; quiz] ∅ (at_ 0 9 0) = Done runs /\
    Forall (fun r =>
      Forall (fun b => block_title b = title (run_task r) /\
                       block_subject b = default EmptyString (subject (run_task r)))
        (run_blocks r)) runs.
Proof.
  eexists. split; [vm_compute; reflexivity |].
  apply (blocks_carry_title_and_subject 20 [essay; quiz] ∅ (at_ 0 9 0)).
  vm_compute; reflexivity.
Defined.

Lemma blocks_are_full_sessions_witness :
  exists runs, schedule_by_task 20 [essay; quiz] ∅ (at_ 0 9 0) = Done runs /\
    Forall (fun r =>
      (forall i b, run_blocks r !! i = Some b -> (S i < length (run_blocks r))%nat ->
                   minutes b = inject_Z (max_session_of ∅)) /\
      Forall (fun b => (minutes b <= inject_Z (max_session_of ∅))%Q)
        (run_blocks r)) runs.
Proof.
  eexists. split; [vm_compute; reflexivity |].
  apply (blocks_are_full_sessions 20 [essay; quiz] ∅ (at_ 0 9 0)).
  vm_compute; reflexivity.
Defined.


Lemma plan_independent_of_task_order_witness :
  [essay; quiz] ≡ₚ [quiz; essay] /\
  generate_schedule 20 [essay; quiz] ∅ (at_ 0 9 0) =
  generate_schedule 20 [quiz; essay] ∅ (at_ 0 9 0).
Proof.
  split; [apply Permutation_swap |].
  apply (plan_independent_of_task_order 20 [essay; quiz] [quiz; essay] ∅ (at_ 0 9 0));
    [apply Permutation_swap |].
  intros a b Ha Hb Hk.
  apply elem_of_cons in Ha as [-> | Ha]; [| apply list_elem_of_singleton in Ha as ->];
    (apply elem_of_cons in Hb as [-> | Hb]; [| apply list_elem_of_singleton in Hb as ->]);
    try reflexivity; vm_compute in Hk; discriminate.
Defined.

Lemma snap_settles_witness :
  8 < 22 /\ snap 8 22 (at_ 0 22 30) = Done (at_ 1 8 0) /\
  snap 8 22 (at_ 1 8 0) = Done (at_ 1 8 0).
Proof.
  split; [lia |]. split; [vm_compute; reflexivity |].
  apply (snap_settles 8 22 (at_ 0 22 30) (at_ 1 8 0)); [lia | vm_compute; reflexivity].
Defined.

Lemma tasks_do_not_interleave_witness :
  valid_profile ∅ /\
  exists runs ra rb,
    schedule_by_task 20 [reading; project] ∅ (at_ 0 9 0) = Done runs /\
    runs !! 0%nat = Some ra /\ runs !! 1%nat = Some rb /\
    forall x y, x ∈ run_blocks ra -> y ∈ run_blocks rb ->
                end_ x + 10 * MINUTE <= start y.
Proof.
  split; [evaluated |]. eexists _, _, _.
  split; [vm_compute; reflexivity |]. split; [reflexivity |]. split; [reflexivity |].
  eapply (tasks_do_not_interleave 20 [reading; project] ∅ (at_ 0 9 0))
    with (i := 0%nat) (j := 1%nat);
    [evaluated | vm_compute; reflexivity | lia | reflexivity | reflexivity].
Defined.

Lemma first_block_starts_at_snapped_now_witness :
  valid_profile ∅ /\
  exists b plan, generate_schedule 20 [essay] ∅ (at_ 0 21 30) = Done (b :: plan) /\
                 start b = at_ 0 21 30.
Proof.
  split; [evaluated |]. eexists _, _. split; [vm_compute; reflexivity |].
  eapply (first_block_starts_at_snapped_now 20 [essay] ∅ (at_ 0 21 30));
    [evaluated | vm_compute; reflexivity | vm_compute; intuition discriminate].
Defined.
